(** * ffmpeg-clipo: the render-plan compiler of [render_engine.py]

    A shallow embedding of [build_ffmpeg_command] (render_engine.py, lines
    122-243) and the properties of it that the specification states.

    Conventions of the embedding.
    - A Python [str] is a [string] holding its UTF-8 bytes.  Every string
      operation the function performs (concatenation, [str.replace] on
      ASCII patterns, [str.join]) commutes with UTF-8 encoding.
    - The render config is the [dict] that [json.load] produced: a finite
      map from keys to JSON values ([pyval]).
    - [video_info] is the dict returned by [get_video_info]; [width] and
      [height] are the integers reported by ffprobe, and a key may be
      missing (subscripting then raises [KeyError]).
    - Exceptions are values of [exn], threaded through the [result] monad.
    - [logging] calls only write to the log; they are left out.
    - The module needs Python 3.12 or later: line 210 has backslashes inside
      the expression part of an f-string, a syntax error before PEP 701.
      Under PEP 701 the nested literals are ordinary string literals. *)

From Stdlib Require Import ZArith Lia Ascii.
From stdpp Require Import base option list strings pretty gmap.

Set Warnings "-register-all".

Local Open Scope Z_scope.

(** ** Exceptions and the result monad *)

Inductive exn : Type :=
  | KeyError (key : string)
  | TypeError
  | ValueError
  | OverflowError.

Inductive result (A : Type) : Type :=
  | Ok (a : A)
  | Raise (e : exn).
Arguments Ok {A} a.
Arguments Raise {A} e.

(** [x ← c; k] runs [c] and stops at the first exception. *)
#[export] Instance result_ret : MRet result := fun A a => Ok a.
#[export] Instance result_bind : MBind result := fun A B k r =>
  match r with
  | Ok a => k a
  | Raise e => Raise e
  end.

(** ** Python values *)

(** A binary64 value: [FFin neg m e] is [(-1)^neg * m * 2^e] with [0 <= m]. *)
Inductive pyfloat : Type :=
  | FFin (neg : bool) (m : Z) (e : Z)
  | FInf (neg : bool)
  | FNaN.

(** What [json.load] can produce. *)
Inductive pyval : Type :=
  | PNone
  | PBool (b : bool)
  | PInt (z : Z)
  | PFloat (f : pyfloat)
  | PStr (s : string)
  | PList (l : list pyval)
  | PDict (d : list (string * pyval)).

(** [bool(v)]: the truth value used by [if v:]. *)
Definition py_truthy (v : pyval) : bool :=
  match v with
  | PNone => false
  | PBool b => b
  | PInt z => negb (z =? 0)
  | PFloat (FFin _ m _) => negb (m =? 0)
  | PFloat _ => true
  | PStr s => match s with EmptyString => false | String _ _ => true end
  | PList l => match l with [] => false | _ :: _ => true end
  | PDict d => match d with [] => false | _ :: _ => true end
  end.

(** [v == 'literal']: only a [str] equals a [str]. *)
Definition py_eq_str (v : pyval) (s : string) : bool :=
  match v with
  | PStr t => String.eqb t s
  | _ => false
  end.

(** [hash(v)] succeeds on everything JSON yields except lists and dicts. *)
Definition py_hashable (v : pyval) : bool :=
  match v with
  | PList _ | PDict _ => false
  | _ => true
  end.

(** [d.get(key)]: the value, or [None] when the key is absent. *)
Definition dict_get (d : gmap string pyval) (key : string) : pyval :=
  default PNone (d !! key).

(** ** Binary64 arithmetic used by the crop stage *)

(** Round the non-negative dyadic [m * 2^e] to 53 significant bits, ties to
    even.  The exponent range is checked separately by [too_large]. *)
Definition round53 (m e : Z) : Z * Z :=
  if m <? 2 ^ 53 then (m, e)
  else
    let k := Z.log2 m - 52 in
    let q := m / 2 ^ k in
    let r := m mod 2 ^ k in
    let half := 2 ^ (k - 1) in
    let q' := if r <? half then q
              else if half <? r then q + 1
              else if Z.even q then q else q + 1 in
    (q', e + k).

(** [m * 2^e >= 2^1024]: beyond the largest finite binary64. *)
Definition too_large (m e : Z) : bool :=
  if e <? 0 then false else 2 ^ 1024 <=? m * 2 ^ e.

(** [float(z)] as done implicitly by [z * x]; raises when [z] is too large. *)
Definition py_float_of_int (z : Z) : result pyfloat :=
  let '(m, e) := round53 (Z.abs z) 0 in
  if too_large m e then Raise OverflowError else Ok (FFin (z <? 0) m e).

(** [a / 2**j] on ints (true division, correctly rounded).  The two
    divisions of the function are [9/16] and [(...) / 2]. *)
Definition py_truediv_pow2 (a j : Z) : result pyfloat :=
  let '(m, e) := round53 (Z.abs a) (- j) in
  if too_large m e then Raise OverflowError else Ok (FFin (a <? 0) m e).

(** [x * y] on floats.  Gradual underflow is not modelled; it cannot occur
    in this program, where one factor is integer-valued and the other is
    0.5625. *)
Definition py_float_mul (x y : pyfloat) : pyfloat :=
  match x, y with
  | FNaN, _ | _, FNaN => FNaN
  | FInf s, FInf t => FInf (xorb s t)
  | FInf s, FFin t m _ | FFin t m _, FInf s =>
      if m =? 0 then FNaN else FInf (xorb s t)
  | FFin s m e, FFin t n f =>
      let '(p, g) := round53 (m * n) (e + f) in
      if too_large p g then FInf (xorb s t) else FFin (xorb s t) p g
  end.

(** [z * x] with [z] an int and [x] a float. *)
Definition py_int_mul_float (z : Z) (x : pyfloat) : result pyfloat :=
  fz ← py_float_of_int z; Ok (py_float_mul fz x).

(** [int(x)]: truncation toward zero. *)
Definition py_int_of_float (x : pyfloat) : result Z :=
  match x with
  | FFin neg m e =>
      let a := if 0 <=? e then m * 2 ^ e else m / 2 ^ (- e) in
      Ok (if neg then - a else a)
  | FInf _ => Raise OverflowError
  | FNaN => Raise ValueError
  end.

(** ** String helpers *)

(** [s.replace(old, new)] for a non-empty [old]: non-overlapping
    occurrences, leftmost first.  [skip] counts the characters of a match
    still to be dropped. *)
Fixpoint replace_from (old new : string) (skip : nat) (s : string) : string :=
  match s with
  | EmptyString => EmptyString
  | String c s' =>
      match skip with
      | S k => replace_from old new k s'
      | O =>
          if String.prefix old s
          then new +:+ replace_from old new (Nat.pred (String.length old)) s'
          else String c (replace_from old new O s')
      end
  end.

Definition py_replace (s old new : string) : string :=
  replace_from old new O s.

(** [sep.join(parts)]. *)
Fixpoint py_join (sep : string) (parts : list string) : string :=
  match parts with
  | [] => ""
  | [p] => p
  | p :: rest => p +:+ sep +:+ py_join sep rest
  end.

(** [os.path.join(a, b)] (posixpath, two components). *)
Definition os_path_join (a b : string) : string :=
  if String.prefix "/" b then b
  else if (String.eqb a "" || String.eqb (String.substring (Nat.pred (String.length a)) 1 a) "/")%bool
       then a +:+ b
       else a +:+ "/" +:+ b.

(** [f"{v}"] for a JSON value.  The text of a float, a list or a dict is
    the interpreter's [repr], taken from the environment ([repr_of]). *)
Definition py_format (repr_of : pyval -> string) (v : pyval) : string :=
  match v with
  | PStr s => s
  | PNone => "None"
  | PBool true => "True"
  | PBool false => "False"
  | PInt z => pretty z
  | _ => repr_of v
  end.

(** ** The compiler state *)

(** What the function reads from outside its arguments: [os.path.exists]
    and the interpreter's [repr]. *)
Record env : Type := mk_env {
  path_exists : string -> bool;
  repr_of : pyval -> string
}.

(** The dict returned by [get_video_info]; [None] is a missing key. *)
Record video_info : Type := mk_video_info {
  vi_width : option Z;
  vi_height : option Z;
  vi_duration : option pyfloat
}.

(** [video_info[key]]. *)
Definition subscript {A : Type} (field : option A) (key : string) : result A :=
  match field with
  | Some a => Ok a
  | None => Raise (KeyError key)
  end.

(** The local variables that the stages update (lines 131-139). *)
Record state : Type := mk_state {
  inputs_args : list string;
  filter_complex_parts : list string;
  current_v_stream : string;
  next_input_idx : Z
}.

Definition OUTPUTS_DIR : string := "outputs".
Definition ASSETS_DIR : string := "assets".

Definition initial_state (input_video_path : string) : state :=
  {| inputs_args := ["-i"; input_video_path];
     filter_complex_parts := [];
     current_v_stream := "[0:v]";
     next_input_idx := 1 |}.

(** [filter_complex_parts.append(fragment); current_v_stream = label]. *)
Definition emit (fragment label : string) (st : state) : state :=
  {| inputs_args := inputs_args st;
     filter_complex_parts := filter_complex_parts st ++ [fragment];
     current_v_stream := label;
     next_input_idx := next_input_idx st |}.

(** [inputs_args.extend(['-i', asset]); next_input_idx += 1]. *)
Definition add_input (asset : string) (st : state) : state :=
  {| inputs_args := inputs_args st ++ ["-i"; asset];
     filter_complex_parts := filter_complex_parts st;
     current_v_stream := current_v_stream st;
     next_input_idx := next_input_idx st + 1 |}.

(** [f"[{next_input_idx}:v]"]. *)
Definition input_stream (idx : Z) : string := "[" +:+ pretty idx +:+ ":v]".

(** ** The stages *)

(** Line 147. *)
Definition crop_filter (current_v : string) (target_width input_height offset_x : Z)
    : string :=
  current_v +:+ "crop=w=" +:+ pretty target_width +:+ ":h=" +:+
  pretty input_height +:+ ":x=" +:+ pretty offset_x +:+ ":y=0[cropped]".

(** Lines 142-151.  The [elif] branch only logs. *)
Definition crop_stage (config : gmap string pyval) (input_width input_height : Z)
    (st : state) : result state :=
  if py_eq_str (dict_get config "crop_mode") "center_crop" && (input_height <? input_width)
  then
    target_aspect_ratio ← py_truediv_pow2 9 4;
    scaled ← py_int_mul_float input_height target_aspect_ratio;
    target_width ← py_int_of_float scaled;
    halved ← py_truediv_pow2 (input_width - target_width) 1;
    offset_x ← py_int_of_float halved;
    Ok (emit (crop_filter (current_v_stream st) target_width input_height offset_x)
             "[cropped]" st)
  else Ok st.

(** Lines 154-161.  [zoom_rate = 0.05] is rendered by the f-string as
    [0.05]. *)
Definition zoom_body : string :=
  "scale=w='iw*pow(1+0.05,t)':h='ih*pow(1+0.05,t)':eval=frame,crop=iw:ih[zoomed]".

Definition zoom_stage (config : gmap string pyval) (st : state) : state :=
  if py_truthy (dict_get config "zoom_effect")
  then emit (current_v_stream st +:+ zoom_body) "[zoomed]" st
  else st.

Definition brand_overlay_body : string := "overlay=x=0:y=ih-overlay_h[bar_applied]".
Definition brand_drawbox_body : string :=
  "drawbox=x=0:y=ih-50:w=iw:h=50:color=blue@0.7:t=fill[bar_applied]".
Definition brand_text_body : string :=
  "drawtext=text='Your Brand Here':x=(w-text_w)/2:y=20:fontsize=24:fontcolor=white:box=1:boxcolor=black@0.5:boxborderw=5[templated]".
Definition border_body : string :=
  "drawbox=x=10:y=10:w=iw-20:h=ih-20:color=white:t=5[bordered]".
Definition watermark_overlay_body : string :=
  "overlay=x=iw-overlay_w-10:y=ih-overlay_h-10[templated]".
Definition null_body : string := "null[templated]".

(** Lines 167-181. *)
Definition template_1 (E : env) (st : state) : state :=
  let brand_asset := os_path_join ASSETS_DIR "brand_bar.png" in
  let st1 :=
    if path_exists E brand_asset
    then
      let brand_stream := input_stream (next_input_idx st) in
      let st' := add_input brand_asset st in
      emit (current_v_stream st' +:+ brand_stream +:+ brand_overlay_body) "[bar_applied]" st'
    else
      emit (current_v_stream st +:+ brand_drawbox_body) "[bar_applied]" st in
  emit (current_v_stream st1 +:+ brand_text_body) "[templated]" st1.

(** Lines 183-197. *)
Definition template_2 (E : env) (st : state) : state :=
  let st1 := emit (current_v_stream st +:+ border_body) "[bordered]" st in
  let watermark_asset := os_path_join ASSETS_DIR "watermark_logo.png" in
  if path_exists E watermark_asset
  then
    let watermark_stream := input_stream (next_input_idx st1) in
    let st' := add_input watermark_asset st1 in
    emit (current_v_stream st' +:+ watermark_stream +:+ watermark_overlay_body) "[templated]" st'
  else
    emit (current_v_stream st1 +:+ null_body) "[templated]" st1.

(** Lines 164-199. *)
Definition template_stage (E : env) (config : gmap string pyval) (st : state) : state :=
  let template_id := dict_get config "template_id" in
  if py_truthy template_id then
    if py_eq_str template_id "template_1" then template_1 E st
    else if py_eq_str template_id "template_2" then template_2 E st
    else st
  else st.

(** Lines 204-207. *)
Definition style_map : gmap string string :=
  <["bold_white_box" := "FontName=Arial,FontSize=24,PrimaryColour=&H00FFFFFF&,Bold=1,BorderStyle=3,OutlineColour=&H80000000&,BackColour=&H80000000&,MarginV=15"]>
  (<["yellow_bold" := "FontName=Arial,FontSize=24,PrimaryColour=&H0000FFFF&,Bold=1,BorderStyle=1,Outline=1,MarginV=15"]> ∅).

(** [style_map.get(v)]: hashing a list or a dict raises [TypeError]; no
    other non-string value equals a key. *)
Definition style_map_get (v : pyval) : result (option string) :=
  match v with
  | PStr s => Ok (style_map !! s)
  | PList _ | PDict _ => Raise TypeError
  | _ => Ok None
  end.

(** [input_srt_path.replace('\\\\', '/').replace(':', '\\\\:')] (line 210).
    Each Python literal ['\\\\'] is two backslash characters. *)
Definition escape_srt_path (input_srt_path : string) : string :=
  py_replace (py_replace input_srt_path "\\" "/") ":" "\\:".

Definition subtitle_filter (current_v input_srt_path force_style : string) : string :=
  current_v +:+ "subtitles=filename='" +:+ escape_srt_path input_srt_path +:+
  "':force_style='" +:+ force_style +:+ "'[subtitled]".

(** Lines 201-214. *)
Definition subtitle_stage (config : gmap string pyval) (input_srt_path : string)
    (st : state) : result state :=
  let subtitle_style := dict_get config "subtitle_style" in
  if py_truthy subtitle_style then
    force_style ← style_map_get subtitle_style;
    match force_style with
    | Some (String c fs) =>
        Ok (emit (subtitle_filter (current_v_stream st) input_srt_path (String c fs))
                 "[subtitled]" st)
    | _ => Ok st
    end
  else Ok st.

(** Lines 142-214: the four stages in their fixed order. *)
Definition run_stages (E : env) (config : gmap string pyval)
    (input_width input_height : Z) (input_video_path input_srt_path : string)
    : result state :=
  st1 ← crop_stage config input_width input_height (initial_state input_video_path);
  subtitle_stage config input_srt_path (template_stage E config (zoom_stage config st1)).

(** Line 135. *)
Definition output_path (E : env) (config : gmap string pyval) : string :=
  let output_format := default (PStr "mp4") (config !! "output_format") in
  os_path_join OUTPUTS_DIR ("final_render." +:+ py_format (repr_of E) output_format).

(** Lines 230-239. *)
Definition output_options_args (out : string) : list string :=
  ["-c:v"; "libx264"; "-pix_fmt"; "yuv420p"; "-preset"; "medium"; "-crf"; "23";
   "-c:a"; "aac"; "-b:a"; "128k"; "-y"; out].

(** Lines 216-228: the stream maps chosen at the end. *)
Definition final_v_stream (st : state) : string :=
  match filter_complex_parts st with
  | [] => "[0:v]"
  | _ :: _ => current_v_stream st
  end.

Definition final_a_stream (st : state) : string :=
  match filter_complex_parts st with
  | [] => "[0:a]"
  | _ :: _ => "0:a?"
  end.

Definition filter_complex_args (st : state) : list string :=
  match filter_complex_parts st with
  | [] => []
  | _ :: _ => ["-filter_complex"; py_join ";" (filter_complex_parts st)]
  end.

(** Lines 216-243. *)
Definition assemble (st : state) (out : string) : list string :=
  let final_cmd := ["ffmpeg"] ++ inputs_args st ++ filter_complex_args st in
  let maps_args := ["-map"; final_v_stream st; "-map"; final_a_stream st] in
  final_cmd ++ maps_args ++ output_options_args out.

(** Lines 122-243. *)
Definition build_ffmpeg_command (E : env) (config : gmap string pyval)
    (info : video_info) (input_video_path input_srt_path : string)
    : result (list string) :=
  input_width ← subscript (vi_width info) "width";
  input_height ← subscript (vi_height info) "height";
  duration ← subscript (vi_duration info) "duration";
  let out := output_path E config in
  st ← run_stages E config input_width input_height input_video_path input_srt_path;
  Ok (assemble st out).

(** * The callers: [parse_config], [get_video_info] and [main]

    What these functions get from outside (the config file, the network,
    ffprobe, ffmpeg) is a field of [world]; each field stands for a call
    whose every exception the source catches, so it yields a value or
    nothing.  [os.path] is [posixpath].  [main] is embedded as the list of
    what it does to the outside, in order, with the way it ends. *)

(** ** [os.path.splitext] and the download paths (lines 298-302) *)

(** [s.rfind(c)] for a one-character [c]: the last index of [c], or -1. *)
Fixpoint rfind (c : Ascii.ascii) (s : string) : Z :=
  match s with
  | EmptyString => -1
  | String a rest =>
      let i := rfind c rest in
      if 0 <=? i then i + 1 else if Ascii.eqb a c then 0 else -1
  end.

(** [s[n:]] and [s[:n]]. *)
Fixpoint str_drop (n : nat) (s : string) : string :=
  match n, s with
  | S k, String _ rest => str_drop k rest
  | _, _ => s
  end.

Fixpoint str_take (n : nat) (s : string) : string :=
  match n, s with
  | S k, String a rest => String a (str_take k rest)
  | _, _ => EmptyString
  end.

(** The loop of [genericpath._splitext]: one of the first [n] characters
    of [s] is not a dot. *)
Fixpoint has_non_dot (n : nat) (s : string) : bool :=
  match n, s with
  | S k, String a rest => negb (Ascii.eqb a ".") || has_non_dot k rest
  | _, _ => false
  end.

(** [os.path.splitext(p)] (posixpath): the extension starts at the last dot
    of the last path component, unless only dots precede it there. *)
Definition splitext (p : string) : string * string :=
  let sepIndex := rfind "/" p in
  let dotIndex := rfind "." p in
  if (sepIndex <? dotIndex) &&
     has_non_dot (Z.to_nat (dotIndex - (sepIndex + 1))) (str_drop (Z.to_nat (sepIndex + 1)) p)
  then (str_take (Z.to_nat dotIndex) p, str_drop (Z.to_nat dotIndex) p)
  else (p, EmptyString).

(** Line 298.  [len] counts code points; an extension is empty or starts
    with a dot, so it has more than one code point exactly when it has
    more than one byte. *)
Definition video_ext (video_url : string) : string :=
  if (1 <? String.length (splitext video_url).2)%nat
  then (splitext video_url).2
  else ".mp4".

Definition DOWNLOADS_DIR : string := "downloads".

(** Lines 299-302. *)
Definition video_path_of (video_url : string) : string :=
  os_path_join DOWNLOADS_DIR ("input_video" +:+ video_ext video_url).

Definition srt_path : string := os_path_join DOWNLOADS_DIR "input_subtitles.srt".

(** [old] occurs in [s] ([old in s] on strings). *)
Fixpoint occurs (old s : string) : bool :=
  String.prefix old s ||
  match s with
  | EmptyString => false
  | String _ rest => occurs old rest
  end.

(** ** [parse_config] (lines 16-35) *)

(** The value stored under [key] in the items of a dict. *)
Definition items_get (d : list (string * pyval)) (key : string) : option pyval :=
  snd <$> find (fun kv => String.eqb kv.1 key) d.

(** [key in container]: a key of a dict, an element of a list, a substring
    of a str; any other JSON value raises [TypeError]. *)
Definition py_contains (container : pyval) (key : string) : result bool :=
  match container with
  | PDict d => Ok (bool_decide (is_Some (items_get d key)))
  | PList l => Ok (existsb (fun v => py_eq_str v key) l)
  | PStr s => Ok (occurs key s)
  | _ => Raise TypeError
  end.

(** [container[key]] for a str [key]. *)
Definition py_subscript (container : pyval) (key : string) : result pyval :=
  match container with
  | PDict d =>
      match items_get d key with
      | Some v => Ok v
      | None => Raise (KeyError key)
      end
  | _ => Raise TypeError
  end.

(** [loaded] is what [open] and [json.load] gave: [None] when either
    raised (lines 27-35 turn every exception into [None]). *)
Definition parse_config (loaded : option pyval) : option pyval :=
  match loaded with
  | None => None
  | Some config =>
      match py_contains config "video_url" with
      | Ok true =>
          match py_contains config "subtitle_url" with
          | Ok true =>
              match py_contains config "render_config" with
              | Ok true => Some config
              | _ => None
              end
          | _ => None
          end
      | _ => None
      end
  end.

(** ** [get_video_info] (lines 64-120) *)

(** The JSON that ffprobe prints for
    [-show_entries stream=width,height,duration -of json]: an array of
    stream objects with integer sizes and a duration in text, each entry of
    which may be missing. *)
Record ffprobe_stream : Type := mk_stream {
  s_width : option Z;
  s_height : option Z;
  s_duration : option string
}.

Record ffprobe_data : Type := mk_data {
  d_streams : option (list ffprobe_stream)
}.

(** What the program does not compute itself. *)
Record world : Type := mk_world {
  (** [open] and [json.load] of the config file; [None] when one raises. *)
  loaded_config : option pyval;
  (** [download_file(url, destination_path)] (lines 37-62). *)
  download_file : pyval -> string -> bool;
  (** Lines 67-84: [None] when the file is missing, ffprobe is missing or
      fails, or its output is not JSON. *)
  ffprobe : string -> option ffprobe_data;
  (** [float(text)]; [None] when it raises [ValueError]. *)
  float_of_str : string -> option pyfloat;
  (** [run_command(cmd_list)] (lines 245-274). *)
  run_command : list string -> bool;
  host : env
}.

(** Lines 86-103, with the handlers of lines 105-110: what is made of the
    decoded JSON. *)
Definition stream_metadata (to_float : string -> option pyfloat) (data : ffprobe_data)
    : option video_info :=
  match d_streams data with
  | None | Some [] => None
  | Some (stream_info :: _) =>
      match s_width stream_info, s_height stream_info, s_duration stream_info with
      | Some width, Some height, Some duration_str =>
          duration ← to_float duration_str;
          Some (mk_video_info (Some width) (Some height) (Some duration))
      | _, _, _ => None
      end
  end.

(** Lines 64-120. *)
Definition get_video_info (W : world) (video_path : string) : option video_info :=
  data ← ffprobe W video_path;
  stream_metadata (float_of_str W) data.

(** ** [main] (lines 281-344) *)

(** What [main] does to the outside, in order. *)
Inductive action : Type :=
  | Download (url : pyval) (destination_path : string)
  | Probe (video_path : string)
  | Render (cmd : list string).

(** An exception that nothing catches.  [AttributeError] is [config.get]
    on a [render_config] that is not a dict. *)
Inductive crash : Type :=
  | Raised (e : exn)
  | AttributeError.

Inductive exit_status : Type :=
  | Exit0
  | Exit1
  | Uncaught (c : crash).

(** Lines 321-337, once both files are there and the video is probed. *)
Definition render (W : world) (config : list (string * pyval)) (info : video_info)
    (video_path : string) (done : list action) : list action * exit_status :=
  match default (PDict []) (items_get config "render_config") with
  | PDict render_config =>
      match build_ffmpeg_command (host W) (list_to_map render_config) info
              video_path srt_path with
      | Raise e => (done, Uncaught (Raised e))
      | Ok ffmpeg_cmd =>
          (done ++ [Render ffmpeg_cmd],
           if run_command W ffmpeg_cmd then Exit0 else Exit1)
      end
  | _ => (done, Uncaught AttributeError)
  end.

(** The two [os.makedirs] calls are taken to succeed. *)
Definition main (W : world) : list action * exit_status :=
  match parse_config (loaded_config W) with
  | None => ([], Exit1)
  | Some (PDict config) =>
      match items_get config "video_url" with
      | None => ([], Uncaught (Raised (KeyError "video_url")))
      | Some (PStr video_url) =>
          let video_path := video_path_of video_url in
          let get_video := Download (PStr video_url) video_path in
          if download_file W (PStr video_url) video_path then
            match items_get config "subtitle_url" with
            | None => ([get_video], Uncaught (Raised (KeyError "subtitle_url")))
            | Some subtitle_url =>
                let get_srt := Download subtitle_url srt_path in
                if download_file W subtitle_url srt_path then
                  match get_video_info W video_path with
                  | None => ([get_video; get_srt; Probe video_path], Exit1)
                  | Some info =>
                      render W config info video_path
                        [get_video; get_srt; Probe video_path]
                  end
                else ([get_video; get_srt], Exit1)
            end
          else ([get_video], Exit1)
      | Some _ => ([], Uncaught (Raised TypeError))
      end
  | Some _ => ([], Uncaught (Raised TypeError))
  end.

(** ** Notions used to state the properties *)

(** The output label of a fragment: its text from the last ['['] on. *)
Fixpoint out_label (fragment : string) : string :=
  match fragment with
  | EmptyString => EmptyString
  | String c rest =>
      match out_label rest with
      | EmptyString => if Ascii.eqb c "["%char then fragment else EmptyString
      | String _ _ as l => l
      end
  end.

(** Each fragment reads the handle that is current when it is emitted: the
    initial handle for the first one, the previous fragment's output label
    for the others. *)
Fixpoint threaded (cur : string) (parts : list string) : Prop :=
  match parts with
  | [] => True
  | f :: rest => String.prefix cur f = true /\ threaded (out_label f) rest
  end.

(** The handle left by a list of fragments. *)
Fixpoint handle_after (cur : string) (parts : list string) : string :=
  match parts with
  | [] => cur
  | f :: rest => handle_after (out_label f) rest
  end.

Fixpoint ends_with (c : Ascii.ascii) (s : string) : bool :=
  match s with
  | EmptyString => false
  | String a EmptyString => Ascii.eqb a c
  | String _ rest => ends_with c rest
  end.

(** The threading invariant: the fragments are threaded from the decoded
    stream, the current handle is the one they leave, and their output
    labels are [labels]. *)
Definition inv (labels : list string) (st : state) : Prop :=
  threaded "[0:v]" (filter_complex_parts st) /\
  handle_after "[0:v]" (filter_complex_parts st) = current_v_stream st /\
  map out_label (filter_complex_parts st) = labels.

(** A [-map] selector is optional when it ends in a question mark. *)
Definition optional_map (selector : string) : bool := ends_with "?"%char selector.

(** The [-i] arguments that declare the given files, slot 0 first. *)
Definition input_args_of (files : list string) : list string :=
  flat_map (fun f => ["-i"; f]) files.

(** The condition of line 142. *)
Definition crop_applies (config : gmap string pyval) (w h : Z) : bool :=
  py_eq_str (dict_get config "crop_mode") "center_crop" && (h <? w).

(** A style name of the table of lines 204-207. *)
Definition recognized_style (v : pyval) : bool :=
  py_eq_str v "bold_white_box" || py_eq_str v "yellow_bold".

(** The table lookup of line 208 does not raise: a value that reaches it
    (a truthy one) can be hashed. *)
Definition lookup_defined (config : gmap string pyval) : Prop :=
  py_truthy (dict_get config "subtitle_style") = true ->
  py_hashable (dict_get config "subtitle_style") = true.

(** The labels each stage installs, from the options alone. *)
Definition crop_labels (config : gmap string pyval) (w h : Z) : list string :=
  if crop_applies config w h then ["[cropped]"] else [].

Definition zoom_labels (config : gmap string pyval) : list string :=
  if py_truthy (dict_get config "zoom_effect") then ["[zoomed]"] else [].

Definition template_labels (config : gmap string pyval) : list string :=
  if py_eq_str (dict_get config "template_id") "template_1"
  then ["[bar_applied]"; "[templated]"]
  else if py_eq_str (dict_get config "template_id") "template_2"
  then ["[bordered]"; "[templated]"]
  else [].

Definition subtitle_labels (config : gmap string pyval) : list string :=
  if recognized_style (dict_get config "subtitle_style") then ["[subtitled]"] else [].

Definition stage_labels (config : gmap string pyval) (w h : Z) : list string :=
  crop_labels config w h ++ zoom_labels config ++ template_labels config ++
  subtitle_labels config.

(** The overlay assets a compilation declares as inputs. *)
Definition aux_inputs (E : env) (config : gmap string pyval) : list string :=
  if py_eq_str (dict_get config "template_id") "template_1"
  then (if path_exists E "assets/brand_bar.png" then ["assets/brand_bar.png"] else [])
  else if py_eq_str (dict_get config "template_id") "template_2"
  then (if path_exists E "assets/watermark_logo.png" then ["assets/watermark_logo.png"] else [])
  else [].


(** When the crop stage applies, the sizes are in the range where its
    binary64 arithmetic is exact. *)
Definition crop_in_range (config : gmap string pyval) (w h : Z) : Prop :=
  crop_applies config w h = true -> Z.abs w < 2 ^ 52 /\ Z.abs h < 2 ^ 49.

(** The first key of [width], [height], [duration] that is missing. *)
Definition missing_key (info : video_info) : option string :=
  match vi_width info, vi_height info, vi_duration info with
  | None, _, _ => Some "width"
  | Some _, None, _ => Some "height"
  | Some _, Some _, None => Some "duration"
  | Some _, Some _, Some _ => None
  end.


(** [round(n / d)] for [0 < d]: nearest integer, ties to even. *)
Definition round_half_even (n d : Z) : Z :=
  let q := n / d in
  let r := n mod d in
  if 2 * r <? d then q
  else if d <? 2 * r then q + 1
  else if Z.even q then q else q + 1.

(** The crop width in the specification's words: [round(height * 9/16)]. *)
Definition spec_target_width (height : Z) : Z := round_half_even (9 * height) 16.

(** ** Sample inputs *)

Definition no_assets : env := mk_env (fun _ => false) (fun _ => "").
Definition all_assets : env := mk_env (fun _ => true) (fun _ => "").

Definition probed (w h : Z) : video_info :=
  mk_video_info (Some w) (Some h) (Some (FFin false 10 0)).

Definition sample_video : string := "downloads/input_video.mp4".
Definition sample_srt : string := "downloads/input_subtitles.srt".

Definition option_config (key : string) (v : pyval) : gmap string pyval :=
  <[key := v]> ∅.


(** Every option set to a value that its stage acts on. *)
Definition full_config : gmap string pyval :=
  <["crop_mode" := PStr "center_crop"]>
  (<["zoom_effect" := PBool true]>
  (<["template_id" := PStr "template_2"]>
  (<["subtitle_style" := PStr "yellow_bold"]> ∅))).

(** The state after the stages for [full_config] on a 1920x1080 source
    with both assets present. *)
Definition full_state : state :=
  {| inputs_args := ["-i"; sample_video; "-i"; "assets/watermark_logo.png"];
     filter_complex_parts :=
       ["[0:v]crop=w=607:h=1080:x=656:y=0[cropped]";
        "[cropped]" +:+ zoom_body;
        "[zoomed]" +:+ border_body;
        "[bordered][1:v]" +:+ watermark_overlay_body;
        subtitle_filter "[templated]" sample_srt
          "FontName=Arial,FontSize=24,PrimaryColour=&H0000FFFF&,Bold=1,BorderStyle=1,Outline=1,MarginV=15"];
     current_v_stream := "[subtitled]";
     next_input_idx := 2 |}.

(** The order in which the stages install their labels. *)
Definition stage_order : list string :=
  ["[cropped]"; "[zoomed]"; "[bar_applied]"; "[bordered]"; "[templated]"; "[subtitled]"].

(** The command compiled for [full_config]. *)
Definition full_command : list string :=
  assemble full_state (output_path all_assets full_config).

(** ** Sample runs of [main] *)

Definition sample_request : pyval :=
  PDict [("video_url", PStr "https://cdn.example.com/clips/talk.webm");
         ("subtitle_url", PStr "https://cdn.example.com/clips/talk.srt");
         ("render_config",
          PDict [("crop_mode", PStr "center_crop"); ("zoom_effect", PBool true);
                 ("template_id", PStr "template_2");
                 ("subtitle_style", PStr "yellow_bold")])].

(** Every outside step succeeds; the source is 1920x1080. *)
Definition sample_world : world :=
  {| loaded_config := Some sample_request;
     download_file := fun _ _ => true;
     ffprobe := fun _ =>
       Some (mk_data (Some [mk_stream (Some 1920) (Some 1080) (Some "10.500000")]));
     float_of_str := fun _ => Some (FFin false 21 (-1));
     run_command := fun _ => true;
     host := all_assets |}.

Definition sample_command : list string :=
  ["ffmpeg"; "-i"; "downloads/input_video.webm"; "-i"; "assets/watermark_logo.png";
   "-filter_complex";
   py_join ";"
     ["[0:v]crop=w=607:h=1080:x=656:y=0[cropped]";
      "[cropped]" +:+ zoom_body;
      "[zoomed]" +:+ border_body;
      "[bordered][1:v]" +:+ watermark_overlay_body;
      subtitle_filter "[templated]" "downloads/input_subtitles.srt"
        "FontName=Arial,FontSize=24,PrimaryColour=&H0000FFFF&,Bold=1,BorderStyle=1,Outline=1,MarginV=15"];
   "-map"; "[subtitled]"; "-map"; "0:a?"]
  ++ output_options_args "outputs/final_render.mp4".

(** A config file that holds a JSON array of the three key names. *)
Definition array_request : pyval :=
  PList [PStr "video_url"; PStr "subtitle_url"; PStr "render_config"].

Definition array_world : world :=
  {| loaded_config := Some array_request;
     download_file := fun _ _ => true;
     ffprobe := fun _ => None;
     float_of_str := fun _ => None;
     run_command := fun _ => true;
     host := no_assets |}.

(** * Properties *)

(** ** Arithmetic of the crop stage *)

Lemma round53_small m e : m < 2 ^ 53 -> round53 m e = (m, e).
Proof. intros H. unfold round53. destruct (Z.ltb_spec m (2 ^ 53)); [done | lia]. Qed.

Lemma too_large_neg m e : e < 0 -> too_large m e = false.
Proof. intros H. unfold too_large. destruct (Z.ltb_spec e 0); [done | lia]. Qed.

Lemma too_large_zero m : m < 2 ^ 53 -> too_large m 0 = false.
Proof.
  intros H. unfold too_large. change (0 <? 0) with false. cbv iota.
  apply Z.leb_gt. rewrite Z.mul_1_r.
  assert (2 ^ 53 < 2 ^ 1024) by (apply Z.pow_lt_mono_r; lia). lia.
Qed.

Lemma float_of_int_small z :
  Z.abs z < 2 ^ 53 -> py_float_of_int z = Ok (FFin (z <? 0) (Z.abs z) 0).
Proof.
  intros H. unfold py_float_of_int. rewrite round53_small by done.
  by rewrite too_large_zero.
Qed.

Lemma truediv_pow2_small a j :
  Z.abs a < 2 ^ 53 -> 0 < j -> py_truediv_pow2 a j = Ok (FFin (a <? 0) (Z.abs a) (- j)).
Proof.
  intros H Hj. unfold py_truediv_pow2. rewrite round53_small by done.
  by rewrite too_large_neg by lia.
Qed.

Lemma trunc_signed a d :
  0 < d -> (if a <? 0 then - (Z.abs a / d) else Z.abs a / d) = Z.quot a d.
Proof.
  intros Hd. destruct (Z.ltb_spec a 0).
  - rewrite Z.abs_neq by lia. rewrite <- Z.quot_div_nonneg by lia.
    rewrite <- Z.quot_opp_l by lia. f_equal. lia.
  - rewrite Z.abs_eq by lia. by rewrite Z.quot_div_nonneg by lia.
Qed.

Lemma int_of_scaled h :
  Z.abs h < 2 ^ 49 ->
  (scaled ← py_int_mul_float h (FFin false 9 (-4)); py_int_of_float scaled)
  = Ok (Z.quot (9 * h) 16).
Proof.
  intros H. assert (2 ^ 53 = 16 * 2 ^ 49) by reflexivity.
  unfold py_int_mul_float. rewrite float_of_int_small by lia. simpl.
  rewrite round53_small by lia. rewrite too_large_neg by lia. simpl.
  f_equal. rewrite xorb_false_r.
  replace (Z.abs h * 9) with (Z.abs (9 * h)) by lia.
  replace (h <? 0) with (9 * h <? 0) by (destruct (Z.ltb_spec h 0), (Z.ltb_spec (9 * h) 0); lia).
  apply (trunc_signed (9 * h) 16). lia.
Qed.

Lemma int_of_halved a :
  Z.abs a < 2 ^ 53 ->
  (halved ← py_truediv_pow2 a 1; py_int_of_float halved) = Ok (Z.quot a 2).
Proof.
  intros H. rewrite truediv_pow2_small by (done || lia). simpl.
  f_equal. apply (trunc_signed a 2). lia.
Qed.

Lemma quot_9_16_le h : Z.abs (Z.quot (9 * h) 16) <= Z.abs h.
Proof.
  change 16 with (Z.abs 16) at 1. rewrite <- Z.quot_abs by lia.
  rewrite Z.quot_div_nonneg by lia. apply Z.div_le_upper_bound; lia.
Qed.

Lemma crop_stage_exact config w h st :
  crop_applies config w h = true -> Z.abs w < 2 ^ 52 -> Z.abs h < 2 ^ 49 ->
  crop_stage config w h st =
  Ok (emit (crop_filter (current_v_stream st) (Z.quot (9 * h) 16) h
              (Z.quot (w - Z.quot (9 * h) 16) 2)) "[cropped]" st).
Proof.
  intros Ha Hw Hh. unfold crop_stage. unfold crop_applies in Ha. rewrite Ha.
  change (py_truediv_pow2 9 4) with (Ok (FFin false 9 (-4))).
  cbn [mbind result_bind].
  pose proof (int_of_scaled h Hh) as Hs. 
  destruct (py_int_mul_float h (FFin false 9 (-4))) as [sc|]; [|discriminate].
  cbn [mbind result_bind] in Hs |- *. rewrite Hs. cbn [mbind result_bind].
  assert (Z.abs (w - Z.quot (9 * h) 16) < 2 ^ 53) as Ho.
  { pose proof (quot_9_16_le h).
    assert (2 ^ 53 = 16 * 2 ^ 49) by reflexivity.
    assert (2 ^ 52 = 8 * 2 ^ 49) by reflexivity. lia. }
  pose proof (int_of_halved _ Ho) as Hv.
  destruct (py_truediv_pow2 (w - Z.quot (9 * h) 16) 1); [|discriminate].
  cbn [mbind result_bind] in Hv |- *. by rewrite Hv.
Qed.

(** ** Strings *)

Lemma prefix_app a b : String.prefix a (a +:+ b) = true.
Proof.
  induction a as [|c a IH]; simpl.
  - by destruct b.
  - destruct (Ascii.ascii_dec c c); [done | congruence].
Qed.

Lemma out_label_app x y :
  out_label y <> EmptyString -> out_label (x +:+ y) = out_label y.
Proof.
  intros Hy. induction x as [|c x IH]; simpl; [done |].
  rewrite IH. destruct (out_label y); [done | done].
Qed.

Lemma out_label_app_ne x y :
  out_label y <> EmptyString -> out_label (x +:+ y) <> EmptyString.
Proof. intros Hy. by rewrite out_label_app. Qed.

Ltac label_side := repeat apply out_label_app_ne; vm_compute; discriminate.

Lemma threaded_snoc cur parts f :
  threaded cur parts -> String.prefix (handle_after cur parts) f = true ->
  threaded cur (parts ++ [f]).
Proof.
  revert cur. induction parts as [|g parts IH]; simpl; intros cur Ht Hp.
  - done.
  - destruct Ht as [Hg Ht]. split; [done |]. by apply IH.
Qed.

Lemma handle_after_snoc cur parts f :
  handle_after cur (parts ++ [f]) = out_label f.
Proof. revert cur. induction parts as [|g parts IH]; simpl; intros cur; [done | apply IH]. Qed.

Lemma inv_emit labels st body lbl :
  inv labels st -> out_label body = lbl -> lbl <> EmptyString ->
  inv (labels ++ [lbl]) (emit (current_v_stream st +:+ body) lbl st).
Proof.
  intros (Ht & Hh & Hl) Hb Hne. unfold inv; simpl.
  assert (out_label (current_v_stream st +:+ body) = lbl) as Ho.
  { rewrite out_label_app; [done | by rewrite Hb]. }
  split; [| split].
  - apply threaded_snoc; [done |]. rewrite Hh. apply prefix_app.
  - by rewrite handle_after_snoc.
  - by rewrite map_app, Hl; simpl; rewrite Ho.
Qed.

Lemma inv_initial vp : inv [] (initial_state vp).
Proof. by unfold inv. Qed.

Lemma out_label_crop_body (tw h ox : Z) :
  out_label ("crop=w=" +:+ pretty tw +:+ ":h=" +:+ pretty h +:+ ":x=" +:+ pretty ox +:+ ":y=0[cropped]")
  = "[cropped]".
Proof. by rewrite !out_label_app by label_side. Qed.

Lemma out_label_subtitle_body sp fs :
  out_label ("subtitles=filename='" +:+ escape_srt_path sp +:+ "':force_style='" +:+ fs +:+ "'[subtitled]")
  = "[subtitled]".
Proof. by rewrite !out_label_app by label_side. Qed.

Lemma out_label_overlay_body idx body :
  out_label body <> EmptyString -> out_label (input_stream idx +:+ body) = out_label body.
Proof. apply out_label_app. Qed.

(** ** The stages, one at a time *)

Lemma crop_stage_skip config w h st :
  crop_applies config w h = false -> crop_stage config w h st = Ok st.
Proof. intros Ha. unfold crop_stage. unfold crop_applies in Ha. by rewrite Ha. Qed.

Lemma crop_stage_emits config w h st st' :
  crop_stage config w h st = Ok st' ->
  crop_applies config w h = true ->
  exists tw ox, st' = emit (crop_filter (current_v_stream st) tw h ox) "[cropped]" st.
Proof.
  unfold crop_stage, crop_applies. intros Hc Ha. rewrite Ha in Hc.
  destruct (py_truediv_pow2 9 4) as [r|]; [|discriminate]. cbn [mbind result_bind] in Hc.
  destruct (py_int_mul_float h r) as [sc|]; [|discriminate]. cbn [mbind result_bind] in Hc.
  destruct (py_int_of_float sc) as [tw|]; [|discriminate]. cbn [mbind result_bind] in Hc.
  destruct (py_truediv_pow2 (w - tw) 1) as [hv|]; [|discriminate]. cbn [mbind result_bind] in Hc.
  destruct (py_int_of_float hv) as [ox|]; [|discriminate]. cbn [mbind result_bind] in Hc.
  exists tw, ox. congruence.
Qed.

Lemma crop_stage_inv config w h st st' :
  crop_stage config w h st = Ok st' -> inv [] st ->
  inv (crop_labels config w h) st' /\
  inputs_args st' = inputs_args st /\ next_input_idx st' = next_input_idx st.
Proof.
  intros Hc Hi. unfold crop_labels. destruct (crop_applies config w h) eqn:Ha.
  - destruct (crop_stage_emits _ _ _ _ _ Hc Ha) as (tw & ox & ->).
    split; [| done]. apply (inv_emit [] st _ "[cropped]"); [done | | done].
    apply out_label_crop_body.
  - rewrite crop_stage_skip in Hc by done. by inversion Hc; subst.
Qed.

Lemma zoom_stage_inv config labels st :
  inv labels st ->
  inv (labels ++ zoom_labels config) (zoom_stage config st) /\
  inputs_args (zoom_stage config st) = inputs_args st /\ next_input_idx (zoom_stage config st) = next_input_idx st.
Proof.
  intros Hi. unfold zoom_stage, zoom_labels.
  destruct (py_truthy (dict_get config "zoom_effect")).
  - split; [| done]. by apply inv_emit.
  - by rewrite app_nil_r.
Qed.

Lemma py_eq_str_true v s : py_eq_str v s = true -> v = PStr s.
Proof. destruct v; simpl; try discriminate. by intros ->%String.eqb_eq. Qed.

Lemma inv_add_input labels asset st : inv labels st -> inv labels (add_input asset st).
Proof. done. Qed.

Lemma template_1_inv E labels st :
  inv labels st -> inv (labels ++ ["[bar_applied]"; "[templated]"]) (template_1 E st).
Proof.
  intros Hi. unfold template_1.
  change (labels ++ ["[bar_applied]"; "[templated]"])
    with (labels ++ ["[bar_applied]"] ++ ["[templated]"]).
  rewrite app_assoc.
  destruct (path_exists E _).
  - apply inv_emit; [| done | done].
    apply (inv_emit labels (add_input _ st) (input_stream _ +:+ brand_overlay_body));
      [by apply inv_add_input | | done].
    by rewrite out_label_app by label_side.
  - apply inv_emit; [| done | done]. by apply inv_emit.
Qed.

Lemma template_2_inv E labels st :
  inv labels st -> inv (labels ++ ["[bordered]"; "[templated]"]) (template_2 E st).
Proof.
  intros Hi. unfold template_2.
  change (labels ++ ["[bordered]"; "[templated]"])
    with (labels ++ ["[bordered]"] ++ ["[templated]"]).
  rewrite app_assoc.
  assert (inv (labels ++ ["[bordered]"])
            (emit (current_v_stream st +:+ border_body) "[bordered]" st)) as H1
    by (by apply inv_emit).
  destruct (path_exists E _).
  - apply (inv_emit _ (add_input _ _) (input_stream _ +:+ watermark_overlay_body));
      [by apply inv_add_input | | done].
    by rewrite out_label_app by label_side.
  - by apply inv_emit.
Qed.

Lemma template_stage_unfold E config st :
  template_stage E config st =
  if py_eq_str (dict_get config "template_id") "template_1" then template_1 E st
  else if py_eq_str (dict_get config "template_id") "template_2" then template_2 E st
  else st.
Proof.
  unfold template_stage.
  destruct (py_eq_str (dict_get config "template_id") "template_1") eqn:H1.
  { by rewrite (py_eq_str_true _ _ H1). }
  destruct (py_eq_str (dict_get config "template_id") "template_2") eqn:H2.
  { by rewrite (py_eq_str_true _ _ H2). }
  by destruct (py_truthy _).
Qed.

Lemma template_stage_inv E config labels st :
  inv labels st -> inv (labels ++ template_labels config) (template_stage E config st).
Proof.
  intros Hi. rewrite template_stage_unfold. unfold template_labels.
  destruct (py_eq_str _ "template_1"); [by apply template_1_inv |].
  destruct (py_eq_str _ "template_2"); [by apply template_2_inv |].
  by rewrite app_nil_r.
Qed.

Lemma template_stage_inputs E config st :
  inputs_args (template_stage E config st)
    = inputs_args st ++ input_args_of (aux_inputs E config) /\
  next_input_idx (template_stage E config st)
    = next_input_idx st + Z.of_nat (length (aux_inputs E config)).
Proof.
  rewrite template_stage_unfold. unfold aux_inputs.
  destruct (py_eq_str _ "template_1").
  { unfold template_1. change (os_path_join ASSETS_DIR "brand_bar.png") with "assets/brand_bar.png".
    destruct (path_exists E _); simpl; rewrite ?app_nil_r; split; (done || lia). }
  destruct (py_eq_str _ "template_2").
  { unfold template_2. change (os_path_join ASSETS_DIR "watermark_logo.png") with "assets/watermark_logo.png".
    destruct (path_exists E _); simpl; rewrite ?app_nil_r; split; (done || lia). }
  simpl. rewrite app_nil_r. split; (done || lia).
Qed.

Lemma style_map_miss s :
  String.eqb s "bold_white_box" = false -> String.eqb s "yellow_bold" = false ->
  style_map !! s = None.
Proof.
  intros H1%String.eqb_neq H2%String.eqb_neq. unfold style_map.
  rewrite lookup_insert_ne by done. rewrite lookup_insert_ne by done. apply lookup_empty.
Qed.

Lemma style_map_hit s :
  s = "bold_white_box" \/ s = "yellow_bold" ->
  exists c fs, style_map !! s = Some (String c fs).
Proof. intros [-> | ->]; vm_compute; eauto. Qed.

Lemma subtitle_stage_spec config sp st :
  match subtitle_stage config sp st with
  | Ok st' =>
      if recognized_style (dict_get config "subtitle_style")
      then exists fs, st' = emit (subtitle_filter (current_v_stream st) sp fs) "[subtitled]" st
      else st' = st
  | Raise e =>
      e = TypeError /\
      py_truthy (dict_get config "subtitle_style") = true /\
      py_hashable (dict_get config "subtitle_style") = false
  end.
Proof.
  unfold subtitle_stage, recognized_style.
  destruct (dict_get config "subtitle_style") as [| b | z | f | s | l | d]; simpl; try done.
  - by destruct b.
  - by destruct (negb (z =? 0)).
  - by destruct f as [? m ? | |]; simpl; try destruct (negb (m =? 0)).
  - destruct s as [|c s]; [done |].
    destruct (String.eqb (String c s) "bold_white_box") eqn:H1.
    { apply String.eqb_eq in H1. rewrite H1.
      destruct (style_map_hit "bold_white_box") as (c' & fs & ->); [by left |].
      simpl. eauto. }
    destruct (String.eqb (String c s) "yellow_bold") eqn:H2.
    { apply String.eqb_eq in H2. rewrite H2.
      destruct (style_map_hit "yellow_bold") as (c' & fs & ->); [by right |].
      simpl. eauto. }
    simpl. by rewrite style_map_miss.
  - by destruct l.
  - by destruct d.
Qed.

Lemma subtitle_stage_inv config sp labels st st' :
  subtitle_stage config sp st = Ok st' -> inv labels st ->
  inv (labels ++ subtitle_labels config) st' /\
  inputs_args st' = inputs_args st /\ next_input_idx st' = next_input_idx st.
Proof.
  intros Hs Hi. pose proof (subtitle_stage_spec config sp st) as Hspec.
  rewrite Hs in Hspec. unfold subtitle_labels.
  destruct (recognized_style _).
  - destruct Hspec as (fs & ->). split; [| done].
    apply inv_emit; [done | | done]. apply out_label_subtitle_body.
  - subst st'. by rewrite app_nil_r.
Qed.

Lemma subtitle_stage_defined config sp st :
  lookup_defined config -> exists st', subtitle_stage config sp st = Ok st'.
Proof.
  intros Hd. pose proof (subtitle_stage_spec config sp st) as Hspec.
  destruct (subtitle_stage config sp st) as [st' | e]; [by exists st' |].
  destruct Hspec as (_ & Ht & Hh). specialize (Hd Ht). congruence.
Qed.

(** ** The four stages together *)

Lemma run_stages_shape E config w h vp sp st :
  run_stages E config w h vp sp = Ok st ->
  inv (stage_labels config w h) st /\
  inputs_args st = input_args_of (vp :: aux_inputs E config) /\
  next_input_idx st = 1 + Z.of_nat (length (aux_inputs E config)).
Proof.
  unfold run_stages. intros Hr.
  destruct (crop_stage config w h (initial_state vp)) as [st1 |] eqn:Hc; [| discriminate].
  cbn [mbind result_bind] in Hr.
  destruct (crop_stage_inv _ _ _ _ _ Hc (inv_initial vp)) as (I1 & A1 & N1).
  destruct (zoom_stage_inv config _ _ I1) as (I2 & A2 & N2).
  pose proof (template_stage_inv E config _ _ I2) as I3.
  destruct (template_stage_inputs E config (zoom_stage config st1)) as (A3 & N3).
  destruct (subtitle_stage_inv _ _ _ _ _ Hr I3) as (I4 & A4 & N4).
  split; [| split].
  - unfold stage_labels. by rewrite !app_assoc.
  - by rewrite A4, A3, A2, A1.
  - by rewrite N4, N3, N2, N1.
Qed.

Lemma run_stages_defined E config w h vp sp :
  lookup_defined config -> crop_in_range config w h ->
  exists st, run_stages E config w h vp sp = Ok st.
Proof.
  intros Hd Hb. unfold run_stages.
  destruct (crop_applies config w h) eqn:Ha.
  - destruct (Hb Ha) as [Hw Hh]. rewrite crop_stage_exact by done.
    cbn [mbind result_bind]. by apply subtitle_stage_defined.
  - rewrite crop_stage_skip by done. cbn [mbind result_bind].
    by apply subtitle_stage_defined.
Qed.

Lemma build_with_metadata E config w h d vp sp :
  build_ffmpeg_command E config (mk_video_info (Some w) (Some h) (Some d)) vp sp
  = (st ← run_stages E config w h vp sp; Ok (assemble st (output_path E config))).
Proof. done. Qed.


Lemma handle_after_last cur parts :
  handle_after cur parts = default cur (last (map out_label parts)).
Proof.
  revert cur. induction parts as [| f parts IH]; intros cur; [done |].
  simpl. rewrite IH. destruct (map out_label parts) as [| a l]; [done |].
  rewrite last_cons_cons. destruct (last (a :: l)) eqn:El; [done |].
  by apply last_None in El.
Qed.

(** Fragments are only ever appended. *)
Lemma emit_extends fragment label st :
  filter_complex_parts st `prefix_of` filter_complex_parts (emit fragment label st).
Proof. by apply prefix_app_r. Qed.

Lemma zoom_stage_extends config st :
  filter_complex_parts st `prefix_of` filter_complex_parts (zoom_stage config st).
Proof. unfold zoom_stage. destruct (py_truthy _); [apply emit_extends | done]. Qed.

Lemma template_stage_extends E config st :
  filter_complex_parts st `prefix_of` filter_complex_parts (template_stage E config st).
Proof.
  rewrite template_stage_unfold.
  destruct (py_eq_str _ "template_1").
  { unfold template_1. destruct (path_exists E _); simpl; by do 2 apply prefix_app_r. }
  destruct (py_eq_str _ "template_2"); [| done].
  unfold template_2. destruct (path_exists E _); simpl; by do 2 apply prefix_app_r.
Qed.

Lemma subtitle_stage_extends config sp st st' :
  subtitle_stage config sp st = Ok st' ->
  filter_complex_parts st `prefix_of` filter_complex_parts st'.
Proof.
  intros Hs. pose proof (subtitle_stage_spec config sp st) as Hspec.
  rewrite Hs in Hspec. destruct (recognized_style _).
  - destruct Hspec as (fs & ->). apply emit_extends.
  - by subst.
Qed.

Lemma run_stages_extends E config w h vp sp st :
  run_stages E config w h vp sp = Ok st ->
  exists st1,
    crop_stage config w h (initial_state vp) = Ok st1 /\
    filter_complex_parts st1 `prefix_of` filter_complex_parts st.
Proof.
  unfold run_stages. intros Hr.
  destruct (crop_stage config w h (initial_state vp)) as [st1 |]; [| discriminate].
  cbn [mbind result_bind] in Hr. exists st1. split; [done |].
  etrans; [apply zoom_stage_extends |].
  etrans; [apply template_stage_extends |].
  by eapply subtitle_stage_extends.
Qed.

(** ** The claims of the specification *)




(** C2, as stated, fails: for a 1920x1080 source the crop width is 607,
    while [round(1080 * 9/16)] is 608; for 1918x1079 it is 606, while the
    integer nearest to 606.9375 is 607. *)
Lemma crop_width_is_not_rounded :
  crop_stage (option_config "crop_mode" (PStr "center_crop")) 1920 1080
    (initial_state sample_video)
  = Ok (emit "[0:v]crop=w=607:h=1080:x=656:y=0[cropped]" "[cropped]"
          (initial_state sample_video)) /\
  spec_target_width 1080 = 608 /\
  crop_stage (option_config "crop_mode" (PStr "center_crop")) 1918 1079
    (initial_state sample_video)
  = Ok (emit "[0:v]crop=w=606:h=1079:x=656:y=0[cropped]" "[cropped]"
          (initial_state sample_video)) /\
  spec_target_width 1079 = 607.
Proof. repeat split; by vm_compute. Qed.

(** C2, amended.  For landscape metadata with [crop_mode = "center_crop"]
    and sizes in the range where the binary64 arithmetic is exact, the
    crop width is [height * 9/16] truncated (not rounded), the offset is
    [(width - crop_width) / 2] truncated, and the emitted fragment carries
    both; it is the first fragment of the compiled filter graph. *)
Theorem crop_width_truncates config w h :
  dict_get config "crop_mode" = PStr "center_crop" ->
  0 <= h -> h < w -> w < 2 ^ 52 -> h < 2 ^ 49 ->
  (forall st,
      crop_stage config w h st
      = Ok (emit (current_v_stream st +:+ "crop=w=" +:+ pretty (9 * h / 16) +:+
                  ":h=" +:+ pretty h +:+ ":x=" +:+ pretty ((w - 9 * h / 16) / 2) +:+
                  ":y=0[cropped]") "[cropped]" st)) /\
  (forall E vp sp st,
      run_stages E config w h vp sp = Ok st ->
      head (filter_complex_parts st)
      = Some ("[0:v]crop=w=" +:+ pretty (9 * h / 16) +:+
              ":h=" +:+ pretty h +:+ ":x=" +:+ pretty ((w - 9 * h / 16) / 2) +:+
              ":y=0[cropped]")).
Proof.
  intros Hc Hh Hlt Hw Hh49.
  assert (forall st,
      crop_stage config w h st
      = Ok (emit (current_v_stream st +:+ "crop=w=" +:+ pretty (9 * h / 16) +:+
                  ":h=" +:+ pretty h +:+ ":x=" +:+ pretty ((w - 9 * h / 16) / 2) +:+
                  ":y=0[cropped]") "[cropped]" st)) as Hstage.
  { intros st.
    assert (crop_applies config w h = true) as Ha.
    { unfold crop_applies. rewrite Hc. simpl. by apply Z.ltb_lt. }
    rewrite (crop_stage_exact _ _ _ _ Ha) by lia.
    rewrite Z.quot_div_nonneg by lia.
    assert (9 * h / 16 <= h) by (apply Z.div_le_upper_bound; lia).
    by rewrite (Z.quot_div_nonneg (w - _)) by lia. }
  split; [exact Hstage |].
  intros E vp sp st Hr.
  destruct (run_stages_extends _ _ _ _ _ _ _ Hr) as (st1 & Hc1 & [rest Hp]).
  rewrite Hstage in Hc1. inversion Hc1; subst st1. by rewrite Hp.
Qed.

Lemma crop_width_truncates_witness :
  dict_get full_config "crop_mode" = PStr "center_crop" /\
  0 <= 1080 /\ 1080 < 1920 /\ 1920 < 2 ^ 52 /\ 1080 < 2 ^ 49 /\
  crop_stage full_config 1920 1080 (initial_state sample_video)
  = Ok (emit ("[0:v]" +:+ "crop=w=" +:+ pretty (9 * 1080 / 16) +:+
              ":h=" +:+ pretty 1080 +:+ ":x=" +:+ pretty ((1920 - 9 * 1080 / 16) / 2) +:+
              ":y=0[cropped]") "[cropped]" (initial_state sample_video)) /\
  run_stages all_assets full_config 1920 1080 sample_video sample_srt = Ok full_state /\
  head (filter_complex_parts full_state)
  = Some ("[0:v]crop=w=" +:+ pretty (9 * 1080 / 16) +:+
          ":h=" +:+ pretty 1080 +:+ ":x=" +:+ pretty ((1920 - 9 * 1080 / 16) / 2) +:+
          ":y=0[cropped]").
Proof.
  assert (run_stages all_assets full_config 1920 1080 sample_video sample_srt
          = Ok full_state) as Hr by (vm_compute; reflexivity).
  pose proof (crop_width_truncates full_config 1920 1080 eq_refl
                ltac:(lia) ltac:(lia) eq_refl eq_refl) as [Hstage Hrun].
  split; [reflexivity |]. split; [lia |]. split; [lia |].
  split; [reflexivity |]. split; [reflexivity |].
  split; [exact (Hstage (initial_state sample_video)) |].
  split; [exact Hr |].
  exact (Hrun all_assets sample_video sample_srt full_state Hr).
Defined.

(** The current handle after the stages is the initial handle or a label
    of [stage_labels]; none of them ends in a question mark. *)
Lemma stage_labels_mandatory config w h :
  optional_map (default "[0:v]" (last (stage_labels config w h))) = false.
Proof.
  unfold stage_labels, crop_labels, zoom_labels, template_labels, subtitle_labels.
  destruct (crop_applies config w h), (py_truthy (dict_get config "zoom_effect")),
    (py_eq_str (dict_get config "template_id") "template_1"),
    (py_eq_str (dict_get config "template_id") "template_2"),
    (recognized_style (dict_get config "subtitle_style")); reflexivity.
Qed.

Lemma current_handle_is_last_label E config w h vp sp st :
  run_stages E config w h vp sp = Ok st ->
  current_v_stream st = default "[0:v]" (last (stage_labels config w h)).
Proof.
  intros Hr. destruct (run_stages_shape _ _ _ _ _ _ _ Hr) as ((_ & Hh & Hl) & _).
  by rewrite <- Hh, handle_after_last, Hl.
Qed.

(** C3, as stated, fails: with no style option set the plan maps the audio
    as [[0:a]], which carries no optional marker. *)
Lemma direct_audio_map_is_mandatory :
  build_ffmpeg_command no_assets ∅ (probed 1920 1080) sample_video sample_srt
  = Ok (["ffmpeg"; "-i"; sample_video; "-map"; "[0:v]"; "-map"; "[0:a]"]
        ++ output_options_args "outputs/final_render.mp4") /\
  optional_map "[0:a]" = false.
Proof. split; by vm_compute. Qed.

(** C3, amended.  The audio map is the optional selector [0:a?] exactly
    when at least one fragment was emitted; on the zero-fragment path it is
    [[0:a]], without the optional marker.  The video map never carries the
    marker. *)
Theorem audio_optional_only_with_fragments E config w h d vp sp st :
  run_stages E config w h vp sp = Ok st ->
  build_ffmpeg_command E config (mk_video_info (Some w) (Some h) (Some d)) vp sp
  = Ok (["ffmpeg"] ++ inputs_args st ++ filter_complex_args st ++
        ["-map"; final_v_stream st; "-map"; final_a_stream st] ++
        output_options_args (output_path E config)) /\
  final_a_stream st = (if bool_decide (filter_complex_parts st = []) then "[0:a]" else "0:a?") /\
  optional_map (final_a_stream st) = negb (bool_decide (filter_complex_parts st = [])) /\
  optional_map (final_v_stream st) = false.
Proof.
  intros Hr. split; [| split; [| split]].
  - rewrite build_with_metadata, Hr. cbn [mbind result_bind]. unfold assemble.
    by rewrite <- !app_assoc.
  - unfold final_a_stream. by destruct (filter_complex_parts st).
  - unfold final_a_stream. by destruct (filter_complex_parts st).
  - unfold final_v_stream. destruct (filter_complex_parts st); [done |].
    rewrite (current_handle_is_last_label _ _ _ _ _ _ _ Hr).
    apply stage_labels_mandatory.
Qed.

Lemma audio_optional_only_with_fragments_witness :
  run_stages all_assets full_config 1920 1080 sample_video sample_srt = Ok full_state /\
  build_ffmpeg_command all_assets full_config (probed 1920 1080) sample_video sample_srt
  = Ok (["ffmpeg"] ++ inputs_args full_state ++ filter_complex_args full_state ++
        ["-map"; final_v_stream full_state; "-map"; final_a_stream full_state] ++
        output_options_args (output_path all_assets full_config)) /\
  final_a_stream full_state
  = (if bool_decide (filter_complex_parts full_state = []) then "[0:a]" else "0:a?") /\
  optional_map (final_a_stream full_state)
  = negb (bool_decide (filter_complex_parts full_state = [])) /\
  optional_map (final_v_stream full_state) = false.
Proof.
  assert (run_stages all_assets full_config 1920 1080 sample_video sample_srt
          = Ok full_state) as Hr by (vm_compute; reflexivity).
  split; [exact Hr |].
  exact (audio_optional_only_with_fragments all_assets full_config 1920 1080
           (FFin false 10 0) sample_video sample_srt full_state Hr).
Defined.

(** C4: the code against the claim at the path that [main] builds on
    Windows.  The separator is a single backslash; line 210 replaces only
    pairs of backslashes, so the path is embedded unchanged, separator
    included.  A quote character is embedded unchanged as well. *)
Lemma single_backslash_is_not_escaped :
  escape_srt_path "downloads\input_subtitles.srt" = "downloads\input_subtitles.srt" /\
  subtitle_stage (option_config "subtitle_style" (PStr "bold_white_box"))
    "downloads\input_subtitles.srt" (initial_state sample_video)
  = Ok (emit
          "[0:v]subtitles=filename='downloads\input_subtitles.srt':force_style='FontName=Arial,FontSize=24,PrimaryColour=&H00FFFFFF&,Bold=1,BorderStyle=3,OutlineColour=&H80000000&,BackColour=&H80000000&,MarginV=15'[subtitled]"
          "[subtitled]" (initial_state sample_video)) /\
  escape_srt_path "C:\subs\it's.srt" = "C\\:\subs\it's.srt" /\
  escape_srt_path "C:\\subs\\a.srt" = "C\\:/subs/a.srt".
Proof. repeat split; by vm_compute. Qed.









Lemma input_args_of_snoc files asset :
  input_args_of (files ++ [asset]) = input_args_of files ++ ["-i"; asset].
Proof. unfold input_args_of. by rewrite flat_map_app. Qed.

(** C8.  A compilation declares its inputs in slot order: the primary
    input in slot 0, then the overlay assets, and [next_input_idx] is the
    number of declared inputs, that is the first unused slot.  A template
    stage whose asset is present, started in any state with that property,
    refers in its overlay fragment to the slot [next_input_idx] held on
    entry, declares the asset in exactly that slot, which no earlier input
    occupies, and leaves the earlier slots as they were. *)
Theorem input_slots_are_fresh :
  (forall E config w h vp sp st,
      run_stages E config w h vp sp = Ok st ->
      inputs_args st = input_args_of (vp :: aux_inputs E config) /\
      next_input_idx st = Z.of_nat (length (vp :: aux_inputs E config))) /\
  (forall E st files,
      inputs_args st = input_args_of files ->
      next_input_idx st = Z.of_nat (length files) ->
      path_exists E "assets/watermark_logo.png" = true ->
      last (filter_complex_parts (template_2 E st))
      = Some ("[bordered]" +:+ input_stream (Z.of_nat (length files)) +:+
              watermark_overlay_body) /\
      inputs_args (template_2 E st)
      = input_args_of (files ++ ["assets/watermark_logo.png"]) /\
      next_input_idx (template_2 E st)
      = Z.of_nat (length (files ++ ["assets/watermark_logo.png"])) /\
      files !! length files = None /\
      (files ++ ["assets/watermark_logo.png"]) !! length files
      = Some "assets/watermark_logo.png" /\
      (forall i f, files !! i = Some f ->
                   (files ++ ["assets/watermark_logo.png"]) !! i = Some f)) /\
  (forall E st files,
      inputs_args st = input_args_of files ->
      next_input_idx st = Z.of_nat (length files) ->
      path_exists E "assets/brand_bar.png" = true ->
      filter_complex_parts (template_1 E st)
      = filter_complex_parts st ++
        [current_v_stream st +:+ input_stream (Z.of_nat (length files)) +:+
         brand_overlay_body;
         "[bar_applied]" +:+ brand_text_body] /\
      inputs_args (template_1 E st)
      = input_args_of (files ++ ["assets/brand_bar.png"]) /\
      next_input_idx (template_1 E st)
      = Z.of_nat (length (files ++ ["assets/brand_bar.png"])) /\
      files !! length files = None /\
      (files ++ ["assets/brand_bar.png"]) !! length files = Some "assets/brand_bar.png" /\
      (forall i f, files !! i = Some f ->
                   (files ++ ["assets/brand_bar.png"]) !! i = Some f)).
Proof.
  split; [| split].
  - intros E config w h vp sp st Hr.
    destruct (run_stages_shape _ _ _ _ _ _ _ Hr) as (_ & Ha & Hn).
    split; [done |]. rewrite Hn. simpl length. lia.
  - intros E st files Ha Hn He. unfold template_2.
    change (os_path_join ASSETS_DIR "watermark_logo.png") with "assets/watermark_logo.png".
    rewrite He. simpl. rewrite last_snoc, Hn, Ha, input_args_of_snoc, length_app. simpl.
    repeat split; try done.
    + lia.
    + by apply lookup_ge_None.
    + by rewrite lookup_app_r, Nat.sub_diag.
    + intros i f Hi. by apply lookup_app_l_Some.
  - intros E st files Ha Hn He. unfold template_1.
    change (os_path_join ASSETS_DIR "brand_bar.png") with "assets/brand_bar.png".
    rewrite He. simpl. rewrite Hn, Ha, input_args_of_snoc, length_app, <- app_assoc. simpl.
    repeat split; try done.
    + lia.
    + by apply lookup_ge_None.
    + by rewrite lookup_app_r, Nat.sub_diag.
    + intros i f Hi. by apply lookup_app_l_Some.
Qed.

Lemma input_slots_are_fresh_witness :
  run_stages all_assets full_config 1920 1080 sample_video sample_srt = Ok full_state /\
  (inputs_args full_state
   = input_args_of (sample_video :: aux_inputs all_assets full_config) /\
   next_input_idx full_state
   = Z.of_nat (length (sample_video :: aux_inputs all_assets full_config))) /\
  inputs_args (initial_state sample_video) = input_args_of [sample_video] /\
  next_input_idx (initial_state sample_video) = Z.of_nat (length [sample_video]) /\
  path_exists all_assets "assets/watermark_logo.png" = true /\
  last (filter_complex_parts (template_2 all_assets (initial_state sample_video)))
  = Some ("[bordered]" +:+ input_stream (Z.of_nat (length [sample_video])) +:+
          watermark_overlay_body) /\
  inputs_args (template_2 all_assets (initial_state sample_video))
  = input_args_of ([sample_video] ++ ["assets/watermark_logo.png"]).
Proof.
  assert (run_stages all_assets full_config 1920 1080 sample_video sample_srt
          = Ok full_state) as Hr by (vm_compute; reflexivity).
  split; [exact Hr |]. split.
  - exact (proj1 input_slots_are_fresh all_assets full_config 1920 1080
             sample_video sample_srt full_state Hr).
  - split; [reflexivity |]. split; [reflexivity |]. split; [reflexivity |].
    pose proof (proj1 (proj2 input_slots_are_fresh) all_assets
                  (initial_state sample_video) [sample_video] eq_refl eq_refl eq_refl)
      as (Hl & Hi & _).
    exact (conj Hl Hi).
Defined.

Lemma dict_get_delete_ne (config : gmap string pyval) k k' :
  k <> k' -> dict_get (delete k config) k' = dict_get config k'.
Proof. intros Hne. unfold dict_get. by rewrite lookup_delete_ne. Qed.

Lemma crop_stage_not_landscape config w h st : w <= h -> crop_stage config w h st = Ok st.
Proof.
  intros Hle. apply crop_stage_skip. unfold crop_applies.
  destruct (Z.ltb_spec h w); [lia |]. by rewrite andb_false_r.
Qed.

(** C9.  For portrait or square metadata the crop stage returns the state
    it was given: no fragment, no rebinding, no exception.  A compilation
    with [crop_mode] requested gives what it gives with the key removed,
    and it returns a plan whenever the subtitle lookup is defined. *)
Theorem center_crop_is_noop_unless_landscape :
  (forall config w h st, w <= h -> crop_stage config w h st = Ok st) /\
  (forall E config w h d vp sp,
      w <= h ->
      build_ffmpeg_command E config (mk_video_info (Some w) (Some h) (Some d)) vp sp
      = build_ffmpeg_command E (delete "crop_mode" config)
          (mk_video_info (Some w) (Some h) (Some d)) vp sp) /\
  (forall E config w h d vp sp,
      w <= h -> lookup_defined config ->
      exists st,
        build_ffmpeg_command E config (mk_video_info (Some w) (Some h) (Some d)) vp sp
        = Ok (assemble st (output_path E config)) /\
        "[cropped]" ∉ map out_label (filter_complex_parts st)).
Proof.
  split; [| split].
  - intros config w h st. apply crop_stage_not_landscape.
  - intros E config w h d vp sp Hle. rewrite !build_with_metadata.
    unfold run_stages. rewrite !crop_stage_not_landscape by done.
    cbn [mbind result_bind].
    unfold output_path, zoom_stage, template_stage, subtitle_stage.
    rewrite !dict_get_delete_ne by done. by rewrite lookup_delete_ne by done.
  - intros E config w h d vp sp Hle Hd.
    destruct (run_stages_defined E config w h vp sp Hd) as [st Hr].
    { unfold crop_in_range, crop_applies. destruct (Z.ltb_spec h w); [lia |].
      by rewrite andb_false_r. }
    exists st. split; [by rewrite build_with_metadata, Hr |].
    destruct (run_stages_shape _ _ _ _ _ _ _ Hr) as ((_ & _ & Hl) & _).
    rewrite Hl. unfold stage_labels, crop_labels, crop_applies.
    destruct (Z.ltb_spec h w); [lia |]. rewrite andb_false_r.
    unfold zoom_labels, template_labels, subtitle_labels.
    destruct (py_truthy (dict_get config "zoom_effect")),
      (py_eq_str (dict_get config "template_id") "template_1"),
      (py_eq_str (dict_get config "template_id") "template_2"),
      (recognized_style (dict_get config "subtitle_style"));
      apply (bool_decide_unpack _); by vm_compute.
Qed.

Lemma center_crop_is_noop_unless_landscape_witness :
  1080 <= 1920 /\
  crop_stage full_config 1080 1920 (initial_state sample_video)
  = Ok (initial_state sample_video) /\
  build_ffmpeg_command all_assets full_config (probed 1080 1920) sample_video sample_srt
  = build_ffmpeg_command all_assets (delete "crop_mode" full_config)
      (probed 1080 1920) sample_video sample_srt.
Proof.
  assert (1080 <= 1920) as Hle by lia.
  split; [exact Hle |]. split.
  - exact (proj1 center_crop_is_noop_unless_landscape full_config 1080 1920
             (initial_state sample_video) Hle).
  - exact (proj1 (proj2 center_crop_is_noop_unless_landscape) all_assets full_config
             1080 1920 (FFin false 10 0) sample_video sample_srt Hle).
Defined.

(** C10.  The zoom fragment is emitted exactly when [zoom_effect] is
    truthy in Python's sense: in a compilation a fragment labelled
    [[zoomed]] exists if and only if [bool(config.get('zoom_effect'))]
    holds.  The string ["false"] and the number 1 trigger it; 0, the empty
    string, [False] and a missing key do not. *)
Theorem zoom_follows_truthiness :
  (forall E config w h vp sp st,
      run_stages E config w h vp sp = Ok st ->
      "[zoomed]" ∈ map out_label (filter_complex_parts st) <->
      py_truthy (dict_get config "zoom_effect") = true) /\
  (forall st,
      zoom_stage (option_config "zoom_effect" (PStr "false")) st
      = emit (current_v_stream st +:+ zoom_body) "[zoomed]" st /\
      zoom_stage (option_config "zoom_effect" (PInt 1)) st
      = emit (current_v_stream st +:+ zoom_body) "[zoomed]" st /\
      zoom_stage (option_config "zoom_effect" (PInt 0)) st = st /\
      zoom_stage (option_config "zoom_effect" (PStr "")) st = st /\
      zoom_stage (option_config "zoom_effect" (PBool false)) st = st /\
      zoom_stage ∅ st = st).
Proof.
  split.
  - intros E config w h vp sp st Hr.
    destruct (run_stages_shape _ _ _ _ _ _ _ Hr) as ((_ & _ & Hl) & _).
    rewrite Hl. unfold stage_labels, crop_labels, zoom_labels, template_labels,
      subtitle_labels.
    destruct (crop_applies config w h), (py_truthy (dict_get config "zoom_effect")),
      (py_eq_str (dict_get config "template_id") "template_1"),
      (py_eq_str (dict_get config "template_id") "template_2"),
      (recognized_style (dict_get config "subtitle_style"));
      (split; [intros Hin | intros Heq]);
      first [ reflexivity | discriminate Heq
            | apply (bool_decide_unpack _); by vm_compute
            | exfalso; revert Hin; apply (bool_decide_unpack _); by vm_compute ].
  - intros st. repeat split; reflexivity.
Qed.

Lemma zoom_follows_truthiness_witness :
  run_stages all_assets full_config 1920 1080 sample_video sample_srt = Ok full_state /\
  ("[zoomed]" ∈ map out_label (filter_complex_parts full_state) <->
   py_truthy (dict_get full_config "zoom_effect") = true).
Proof.
  assert (run_stages all_assets full_config 1920 1080 sample_video sample_srt
          = Ok full_state) as Hr by (vm_compute; reflexivity).
  split; [exact Hr |].
  exact (proj1 zoom_follows_truthiness all_assets full_config 1920 1080
           sample_video sample_srt full_state Hr).
Defined.

(** * Further properties of the compiler and of its callers *)

(** X1.  For landscape metadata in the exact range the crop window lies
    inside the frame: the crop width is the largest integer with
    [16 * width <= 9 * height] (never more than the height, at least 1 from
    height 2 on), the offset is not negative, offset plus width does not
    pass the right edge, and the two margins differ by at most one. *)
Theorem crop_window_inside_frame config w h st :
  dict_get config "crop_mode" = PStr "center_crop" ->
  0 <= h -> h < w -> w < 2 ^ 52 -> h < 2 ^ 49 ->
  exists target_width offset_x,
    crop_stage config w h st
    = Ok (emit (crop_filter (current_v_stream st) target_width h offset_x) "[cropped]" st) /\
    16 * target_width <= 9 * h < 16 * (target_width + 1) /\
    0 <= target_width <= h /\
    (2 <= h -> 1 <= target_width) /\
    0 <= offset_x /\
    offset_x + target_width <= w /\
    0 <= (w - target_width - offset_x) - offset_x <= 1.
Proof.
  intros Hc Hh Hlt Hw Hh49.
  assert (crop_applies config w h = true) as Ha.
  { unfold crop_applies. rewrite Hc. simpl. by apply Z.ltb_lt. }
  exists (9 * h / 16), ((w - 9 * h / 16) / 2).
  split.
  { rewrite (crop_stage_exact _ _ _ _ Ha) by lia.
    rewrite Z.quot_div_nonneg by lia.
    assert (9 * h / 16 <= h) by (apply Z.div_le_upper_bound; lia).
    by rewrite (Z.quot_div_nonneg (w - _)) by lia. }
  pose proof (Z.div_mod (9 * h) 16 ltac:(lia)) as Hd.
  pose proof (Z.mod_pos_bound (9 * h) 16 ltac:(lia)) as Hm.
  pose proof (Z.div_mod (w - 9 * h / 16) 2 ltac:(lia)) as Hd2.
  pose proof (Z.mod_pos_bound (w - 9 * h / 16) 2 ltac:(lia)) as Hm2.
  repeat split; lia.
Qed.

Lemma crop_window_inside_frame_witness :
  dict_get full_config "crop_mode" = PStr "center_crop" /\
  0 <= 1080 /\ 1080 < 1920 /\ 1920 < 2 ^ 52 /\ 1080 < 2 ^ 49 /\
  exists target_width offset_x,
    crop_stage full_config 1920 1080 (initial_state sample_video)
    = Ok (emit (crop_filter "[0:v]" target_width 1080 offset_x) "[cropped]"
            (initial_state sample_video)) /\
    16 * target_width <= 9 * 1080 < 16 * (target_width + 1) /\
    0 <= target_width <= 1080 /\
    (2 <= 1080 -> 1 <= target_width) /\
    0 <= offset_x /\
    offset_x + target_width <= 1920 /\
    0 <= (1920 - target_width - offset_x) - offset_x <= 1.
Proof.
  split; [reflexivity |]. split; [lia |]. split; [lia |].
  split; [reflexivity |]. split; [reflexivity |].
  exact (crop_window_inside_frame full_config 1920 1080 (initial_state sample_video)
           eq_refl ltac:(lia) ltac:(lia) eq_refl eq_refl).
Defined.






Lemma stage_labels_in_order config w h : stage_labels config w h `sublist_of` stage_order.
Proof.
  unfold stage_labels, stage_order.
  change ["[cropped]"; "[zoomed]"; "[bar_applied]"; "[bordered]"; "[templated]"; "[subtitled]"]
    with (["[cropped]"] ++ ["[zoomed]"] ++ ["[bar_applied]"; "[bordered]"; "[templated]"]
          ++ ["[subtitled]"]).
  repeat apply sublist_app.
  - unfold crop_labels. destruct (crop_applies _ _ _); repeat constructor.
  - unfold zoom_labels. destruct (py_truthy _); repeat constructor.
  - unfold template_labels. destruct (py_eq_str _ "template_1").
    { apply sublist_skip, sublist_cons, sublist_skip, sublist_nil. }
    destruct (py_eq_str _ "template_2").
    { apply sublist_cons, sublist_skip, sublist_skip, sublist_nil. }
    repeat constructor.
  - unfold subtitle_labels. destruct (recognized_style _); repeat constructor.
Qed.

(** X3.  The fragments of a compilation come in the fixed stage order
    crop, zoom, template, subtitles, each label at most once; there are at
    most five, and the two templates never both contribute. *)
Theorem fragments_follow_stage_order E config w h vp sp st :
  run_stages E config w h vp sp = Ok st ->
  map out_label (filter_complex_parts st) `sublist_of` stage_order /\
  (length (filter_complex_parts st) <= 5)%nat /\
  ~ ("[bar_applied]" ∈ map out_label (filter_complex_parts st) /\
     "[bordered]" ∈ map out_label (filter_complex_parts st)).
Proof.
  intros Hr. destruct (run_stages_shape _ _ _ _ _ _ _ Hr) as ((_ & _ & Hl) & _).
  split; [| split].
  - rewrite Hl. apply stage_labels_in_order.
  - rewrite <- (length_map out_label), Hl.
    unfold stage_labels, crop_labels, zoom_labels, template_labels, subtitle_labels.
    destruct (crop_applies config w h), (py_truthy (dict_get config "zoom_effect")),
      (py_eq_str (dict_get config "template_id") "template_1"),
      (py_eq_str (dict_get config "template_id") "template_2"),
      (recognized_style (dict_get config "subtitle_style")); simpl; lia.
  - rewrite Hl.
    unfold stage_labels, crop_labels, zoom_labels, template_labels, subtitle_labels.
    destruct (crop_applies config w h), (py_truthy (dict_get config "zoom_effect")),
      (py_eq_str (dict_get config "template_id") "template_1"),
      (py_eq_str (dict_get config "template_id") "template_2"),
      (recognized_style (dict_get config "subtitle_style"));
      apply (bool_decide_unpack _); by vm_compute.
Qed.

Lemma fragments_follow_stage_order_witness :
  run_stages all_assets full_config 1920 1080 sample_video sample_srt = Ok full_state /\
  map out_label (filter_complex_parts full_state) `sublist_of` stage_order /\
  (length (filter_complex_parts full_state) <= 5)%nat /\
  ~ ("[bar_applied]" ∈ map out_label (filter_complex_parts full_state) /\
     "[bordered]" ∈ map out_label (filter_complex_parts full_state)).
Proof.
  assert (run_stages all_assets full_config 1920 1080 sample_video sample_srt
          = Ok full_state) as Hr by (vm_compute; reflexivity).
  split; [exact Hr |].
  exact (fragments_follow_stage_order all_assets full_config 1920 1080
           sample_video sample_srt full_state Hr).
Defined.

Lemma input_args_of_length files :
  length (input_args_of files) = (2 * length files)%nat.
Proof.
  unfold input_args_of. induction files as [| f files IH]; [done |].
  simpl. rewrite IH. lia.
Qed.

(** X4.  The shape of a returned command: [ffmpeg], the primary input, at
    most one overlay input, then either no filter graph and the two direct
    maps, or one [-filter_complex] argument and the maps of the last label
    and of the optional audio, then the fourteen output arguments, the
    output path last.  Its length follows. *)
Theorem command_shape E config w h d vp sp cmd :
  build_ffmpeg_command E config (mk_video_info (Some w) (Some h) (Some d)) vp sp = Ok cmd ->
  exists graph maps,
    cmd = ["ffmpeg"; "-i"; vp] ++ input_args_of (aux_inputs E config) ++ graph ++ maps
          ++ output_options_args (output_path E config) /\
    (length (aux_inputs E config) <= 1)%nat /\
    (stage_labels config w h = [] /\ graph = [] /\ maps = ["-map"; "[0:v]"; "-map"; "[0:a]"] \/
     stage_labels config w h <> [] /\
     (exists text, graph = ["-filter_complex"; text]) /\
     maps = ["-map"; default "[0:v]" (last (stage_labels config w h)); "-map"; "0:a?"]) /\
    last cmd = Some (output_path E config) /\
    length cmd = (21 + 2 * length (aux_inputs E config) + length graph)%nat.
Proof.
  rewrite build_with_metadata. intros Hb.
  destruct (run_stages E config w h vp sp) as [st |] eqn:Hr; [| discriminate].
  cbn [mbind result_bind] in Hb. inversion Hb; subst cmd; clear Hb.
  destruct (run_stages_shape _ _ _ _ _ _ _ Hr) as ((_ & Hh & Hl) & Ha & _).
  pose proof (current_handle_is_last_label _ _ _ _ _ _ _ Hr) as Hcur.
  exists (filter_complex_args st), ["-map"; final_v_stream st; "-map"; final_a_stream st].
  split.
  { unfold assemble. rewrite Ha. simpl. by rewrite <- !app_assoc. }
  split.
  { unfold aux_inputs.
    destruct (py_eq_str (dict_get config "template_id") "template_1"),
      (py_eq_str (dict_get config "template_id") "template_2");
      repeat destruct (path_exists E _); simpl; lia. }
  split.
  { unfold filter_complex_args, final_v_stream, final_a_stream. rewrite <- Hcur, <- Hl.
    destruct (filter_complex_parts st) as [| f parts]; [by left |].
    right. split; [done |]. split; [by eexists | done]. }
  split.
  { unfold assemble, output_options_args. by rewrite !app_assoc, last_app. }
  unfold assemble, output_options_args. rewrite Ha. simpl.
  rewrite !length_app, input_args_of_length. simpl. lia.
Qed.

Lemma command_shape_witness :
  build_ffmpeg_command all_assets full_config
    (mk_video_info (Some 1920) (Some 1080) (Some (FFin false 10 0))) sample_video sample_srt
  = Ok full_command /\
  exists graph maps,
    full_command
    = ["ffmpeg"; "-i"; sample_video] ++ input_args_of (aux_inputs all_assets full_config)
      ++ graph ++ maps ++ output_options_args (output_path all_assets full_config) /\
    (length (aux_inputs all_assets full_config) <= 1)%nat /\
    (stage_labels full_config 1920 1080 = [] /\ graph = [] /\
     maps = ["-map"; "[0:v]"; "-map"; "[0:a]"] \/
     stage_labels full_config 1920 1080 <> [] /\
     (exists text, graph = ["-filter_complex"; text]) /\
     maps = ["-map"; default "[0:v]" (last (stage_labels full_config 1920 1080));
             "-map"; "0:a?"]) /\
    last full_command = Some (output_path all_assets full_config) /\
    length full_command
    = (21 + 2 * length (aux_inputs all_assets full_config) + length graph)%nat.
Proof.
  assert (build_ffmpeg_command all_assets full_config
            (mk_video_info (Some 1920) (Some 1080) (Some (FFin false 10 0)))
            sample_video sample_srt = Ok full_command) as Hb by (vm_compute; reflexivity).
  split; [exact Hb |].
  exact (command_shape all_assets full_config 1920 1080 (FFin false 10 0)
           sample_video sample_srt full_command Hb).
Defined.

Lemma replace_absent old new s : occurs old s = false -> py_replace s old new = s.
Proof.
  unfold py_replace. induction s as [| c s IH]; [done |].
  cbn [occurs replace_from]. intros [Hp Ho]%orb_false_iff.
  rewrite Hp. by rewrite IH.
Qed.

(** X5.  A subtitle path with no colon and no two adjacent backslashes is
    left as it is by the escaping of line 210, and the subtitle fragment
    embeds it verbatim, with the style that the table gives. *)
Theorem clean_path_is_embedded_verbatim config sp st :
  occurs "\\" sp = false -> occurs ":" sp = false ->
  recognized_style (dict_get config "subtitle_style") = true ->
  escape_srt_path sp = sp /\
  exists force_style,
    subtitle_stage config sp st
    = Ok (emit (current_v_stream st +:+ "subtitles=filename='" +:+ sp +:+
                "':force_style='" +:+ force_style +:+ "'[subtitled]") "[subtitled]" st) /\
    style_map !! match dict_get config "subtitle_style" with PStr s => s | _ => "" end
    = Some force_style.
Proof.
  intros Hb Hc Hr.
  assert (escape_srt_path sp = sp) as He.
  { unfold escape_srt_path. rewrite (replace_absent "\\" "/" sp Hb).
    by apply replace_absent. }
  split; [done |].
  unfold recognized_style in Hr. apply orb_true_iff in Hr.
  assert (exists s, dict_get config "subtitle_style" = PStr s /\
                    (s = "bold_white_box" \/ s = "yellow_bold")) as (s & Hs & Hk).
  { destruct Hr as [Hr | Hr]; apply py_eq_str_true in Hr; eauto. }
  destruct (style_map_hit s Hk) as (c & fs & Hm).
  exists (String c fs). unfold subtitle_stage. rewrite Hs.
  assert (py_truthy (PStr s) = true) as -> by (by destruct Hk as [-> | ->]).
  simpl. rewrite Hm. simpl. unfold subtitle_filter. by rewrite He.
Qed.

Lemma clean_path_is_embedded_verbatim_witness :
  occurs "\\" sample_srt = false /\ occurs ":" sample_srt = false /\
  recognized_style (dict_get full_config "subtitle_style") = true /\
  escape_srt_path sample_srt = sample_srt.
Proof.
  split; [reflexivity |]. split; [reflexivity |]. split; [reflexivity |].
  exact (proj1 (clean_path_is_embedded_verbatim full_config sample_srt
                  (initial_state sample_video) eq_refl eq_refl eq_refl)).
Defined.

(** ** Strings: searching and slicing *)

Lemma occurs_char c a rest :
  occurs (String c EmptyString) (String a rest)
  = Ascii.eqb a c || occurs (String c EmptyString) rest.
Proof.
  cbn [occurs String.prefix]. f_equal.
  destruct (Ascii.ascii_dec c a) as [-> | Hne].
  - rewrite Ascii.eqb_refl. by destruct rest.
  - symmetry. apply Ascii.eqb_neq. congruence.
Qed.

Lemma rfind_lower c s : -1 <= rfind c s.
Proof.
  induction s as [| a s IH]; cbn [rfind]; [lia |]. cbv zeta.
  destruct (Z.leb_spec 0 (rfind c s)); [lia |]. destruct (Ascii.eqb a c); lia.
Qed.

Lemma rfind_absent c s :
  rfind c s = -1 -> occurs (String c EmptyString) s = false.
Proof.
  induction s as [| a s IH]; [done |]. rewrite occurs_char. cbn [rfind]. cbv zeta.
  pose proof (rfind_lower c s).
  destruct (Z.leb_spec 0 (rfind c s)); [lia |].
  destruct (Ascii.eqb a c); [lia |]. intros _. apply IH. lia.
Qed.

Lemma nothing_after_rfind c s n :
  rfind c s < Z.of_nat n -> occurs (String c EmptyString) (str_drop n s) = false.
Proof.
  revert n. induction s as [| a s IH]; intros n Hn.
  - by destruct n.
  - destruct n as [| n].
    + cbn [str_drop]. apply rfind_absent. pose proof (rfind_lower c (String a s)). lia.
    + cbn [str_drop]. apply IH. cbn [rfind] in Hn. cbv zeta in Hn.
      pose proof (rfind_lower c s).
      destruct (Z.leb_spec 0 (rfind c s)); lia.
Qed.

Lemma drop_at_rfind c s :
  0 <= rfind c s ->
  exists rest, str_drop (Z.to_nat (rfind c s)) s = String c rest.
Proof.
  induction s as [| a s IH]; cbn [rfind]; [lia |]. cbv zeta.
  destruct (Z.leb_spec 0 (rfind c s)) as [Hi | Hi].
  - intros _. destruct (IH Hi) as [rest Hr].
    exists rest. replace (Z.to_nat (rfind c s + 1)) with (S (Z.to_nat (rfind c s))) by lia.
    done.
  - destruct (Ascii.eqb_spec a c) as [-> | Hne]; [| lia]. intros _. by exists s.
Qed.

Lemma append_cons a x y : String a x +:+ y = String a (x +:+ y).
Proof. reflexivity. Qed.

Lemma append_empty_r s : s +:+ EmptyString = s.
Proof. induction s as [| a s IH]; [done |]. by rewrite append_cons, IH. Qed.

Lemma take_drop n s : str_take n s +:+ str_drop n s = s.
Proof.
  revert s. induction n as [| n IH]; intros s; [done |].
  destruct s as [| a s]; [done |]. cbn [str_take str_drop].
  by rewrite append_cons, IH.
Qed.

(** ** [os.path.splitext] *)

Lemma splitext_rejoins p : (splitext p).1 +:+ (splitext p).2 = p.
Proof.
  unfold splitext. destruct (_ && _); simpl.
  - apply take_drop.
  - apply append_empty_r.
Qed.

Lemma splitext_ext p :
  (splitext p).2 = EmptyString \/
  (exists rest, (splitext p).2 = String "." rest) /\ occurs "/" (splitext p).2 = false.
Proof.
  unfold splitext.
  destruct (rfind "/" p <? rfind "." p) eqn:Hlt; simpl; [| by left].
  destruct (has_non_dot _ _); simpl; [| by left].
  apply Z.ltb_lt in Hlt. pose proof (rfind_lower "/" p). right. split.
  - apply drop_at_rfind. lia.
  - apply nothing_after_rfind. lia.
Qed.

(** X8.  [main] stores the video as [downloads/input_video] plus an
    extension and the subtitles as [downloads/input_subtitles.srt].  The
    extension has no slash, starts with a dot and has at least two
    characters; it is [.mp4] or the end of the URL. *)
Theorem downloads_stay_in_their_directory video_url :
  video_path_of video_url = "downloads/input_video" +:+ video_ext video_url /\
  srt_path = "downloads/input_subtitles.srt" /\
  occurs "/" (video_ext video_url) = false /\
  (exists c rest, video_ext video_url = String "." (String c rest)) /\
  (video_ext video_url = ".mp4" \/
   exists stem, video_url = stem +:+ video_ext video_url).
Proof.
  split; [reflexivity |]. split; [reflexivity |].
  unfold video_ext. pose proof (splitext_rejoins video_url) as Hj.
  destruct (splitext_ext video_url) as [He | [[rest He] Hs]]; rewrite He in *.
  - simpl. split; [done |]. split; [by eexists _, _ | by left].
  - cbn [String.length]. destruct rest as [| c rest].
    + simpl. split; [done |]. split; [by eexists _, _ | by left].
    + replace (1 <? S (S (String.length rest)))%nat with true
        by (symmetry; apply Nat.ltb_lt; lia).
      split; [done |]. split; [by eexists _, _ |]. right. by eexists.
Qed.

(** ** What the compiler can raise *)

Lemma truediv_pow2_raises a j e : py_truediv_pow2 a j = Raise e -> e = OverflowError.
Proof.
  unfold py_truediv_pow2. destruct (round53 _ _) as [m k].
  destruct (too_large m k); congruence.
Qed.

Lemma truediv_pow2_finite a j x :
  py_truediv_pow2 a j = Ok x -> exists neg m k, x = FFin neg m k.
Proof.
  unfold py_truediv_pow2. destruct (round53 _ _) as [m k].
  destruct (too_large m k); [discriminate |]. intros [= <-]. eauto.
Qed.

Lemma int_mul_float_raises z x e : py_int_mul_float z x = Raise e -> e = OverflowError.
Proof.
  unfold py_int_mul_float, py_float_of_int. destruct (round53 _ _) as [m k].
  destruct (too_large m k); cbn [mbind result_bind]; congruence.
Qed.

Lemma int_mul_float_not_nan z neg m k x :
  py_int_mul_float z (FFin neg m k) = Ok x -> x <> FNaN.
Proof.
  unfold py_int_mul_float, py_float_of_int. destruct (round53 (Z.abs z) 0) as [m1 k1].
  destruct (too_large m1 k1); cbn [mbind result_bind]; [discriminate |].
  intros [= <-]. cbn [py_float_mul]. destruct (round53 _ _) as [m2 k2].
  by destruct (too_large m2 k2).
Qed.

Lemma int_of_float_raises x e :
  py_int_of_float x = Raise e -> x <> FNaN -> e = OverflowError.
Proof. destruct x; simpl; congruence. Qed.

Lemma crop_stage_raises config w h st e :
  crop_stage config w h st = Raise e -> e = OverflowError.
Proof.
  unfold crop_stage. destruct (_ && _); [| discriminate].
  destruct (py_truediv_pow2 9 4) as [r |] eqn:Hr; cbn [mbind result_bind];
    [| intros [= <-]; by eapply truediv_pow2_raises].
  destruct (truediv_pow2_finite _ _ _ Hr) as (neg & m & k & ->).
  destruct (py_int_mul_float h _) as [sc |] eqn:Hs; cbn [mbind result_bind];
    [| intros [= <-]; by eapply int_mul_float_raises].
  destruct (py_int_of_float sc) as [tw |] eqn:Ht; cbn [mbind result_bind].
  2: { intros [= <-]. eapply int_of_float_raises; [done |].
       by eapply int_mul_float_not_nan. }
  destruct (py_truediv_pow2 (w - tw) 1) as [hv |] eqn:Hv; cbn [mbind result_bind];
    [| intros [= <-]; by eapply truediv_pow2_raises].
  destruct (truediv_pow2_finite _ _ _ Hv) as (neg' & m' & k' & ->).
  discriminate.
Qed.

Lemma run_stages_raises E config w h vp sp e :
  run_stages E config w h vp sp = Raise e ->
  e = OverflowError /\ crop_applies config w h = true \/
  e = TypeError /\ py_hashable (dict_get config "subtitle_style") = false.
Proof.
  unfold run_stages. intros Hr.
  destruct (crop_stage config w h (initial_state vp)) as [st1 |] eqn:Hc;
    cbn [mbind result_bind] in Hr.
  - right. pose proof (subtitle_stage_spec config sp
                         (template_stage E config (zoom_stage config st1))) as Hspec.
    rewrite Hr in Hspec. by destruct Hspec as (-> & _ & Hh).
  - left. injection Hr as <-. split; [by eapply crop_stage_raises |].
    destruct (crop_applies config w h) eqn:Ha; [done |].
    rewrite crop_stage_skip in Hc by done. discriminate.
Qed.


Lemma round53_overflows a :
  2 ^ 1024 <= a -> exists m k, round53 a 0 = (m, k) /\ too_large m k = true.
Proof.
  intros Hz. unfold round53.
  assert (2 ^ 53 <= 2 ^ 1024) as H53 by (apply Z.pow_le_mono_r; lia).
  destruct (Z.ltb_spec a (2 ^ 53)); [lia |]. cbv zeta.
  set (k := Z.log2 a - 52).
  assert (1024 <= Z.log2 a) as Hlog.
  { rewrite <- (Z.log2_pow2 1024) by lia. apply Z.log2_le_mono. lia. }
  assert (0 <= k) as Hk by (unfold k; lia).
  assert (2 ^ Z.log2 a <= a) as Hlow by (apply Z.log2_spec; lia).
  assert (2 ^ Z.log2 a = 2 ^ 52 * 2 ^ k) as Hsplit.
  { rewrite <- Z.pow_add_r by lia. f_equal. unfold k. lia. }
  assert (0 < 2 ^ k) as Hpos by (apply Z.pow_pos_nonneg; lia).
  assert (2 ^ 52 <= a / 2 ^ k) as Hq.
  { apply Z.div_le_lower_bound; [done |]. lia. }
  assert (2 ^ 1024 <= 2 ^ Z.log2 a) as Hbig by (apply Z.pow_le_mono_r; lia).
  eexists _, _. split; [reflexivity |].
  unfold too_large. destruct (Z.ltb_spec (0 + k) 0); [lia |].
  apply Z.leb_le. rewrite Z.add_0_l.
  set (q := a / 2 ^ k) in *.
  assert (q <= (if a mod 2 ^ k <? 2 ^ (k - 1) then q
                else if 2 ^ (k - 1) <? a mod 2 ^ k then q + 1
                     else if Z.even q then q else q + 1)) as Hq'.
  { destruct (_ <? _); [lia |]. destruct (_ <? _); [lia |]. destruct (Z.even _); lia. }
  nia.
Qed.

Lemma float_of_int_overflows z : 2 ^ 1024 <= Z.abs z -> py_float_of_int z = Raise OverflowError.
Proof.
  intros Hz. unfold py_float_of_int.
  destruct (round53_overflows _ Hz) as (m & k & -> & ->). done.
Qed.

(** X7.  A landscape center crop of a source whose height is [2^1024] or
    more raises [OverflowError], in the crop stage and so in the whole
    compilation: the height does not fit a binary64. *)
Theorem crop_overflows_beyond_binary64 E config w h d vp sp :
  dict_get config "crop_mode" = PStr "center_crop" ->
  2 ^ 1024 <= h -> h < w ->
  (forall st, crop_stage config w h st = Raise OverflowError) /\
  build_ffmpeg_command E config (mk_video_info (Some w) (Some h) (Some d)) vp sp
  = Raise OverflowError.
Proof.
  intros Hc Hh Hlt.
  assert (forall st, crop_stage config w h st = Raise OverflowError) as Hstage.
  { intros st. unfold crop_stage. rewrite Hc. simpl.
    replace (h <? w) with true by (symmetry; by apply Z.ltb_lt).
    change (py_truediv_pow2 9 4) with (Ok (FFin false 9 (-4))).
    cbn [mbind result_bind]. unfold py_int_mul_float.
    by rewrite float_of_int_overflows by lia. }
  split; [done |]. rewrite build_with_metadata. unfold run_stages. by rewrite Hstage.
Qed.

(** ** [parse_config], [get_video_info] and [main] *)

Lemma parse_config_accepts loaded config :
  parse_config loaded = Some config ->
  loaded = Some config /\
  py_contains config "video_url" = Ok true /\
  py_contains config "subtitle_url" = Ok true /\
  py_contains config "render_config" = Ok true.
Proof.
  unfold parse_config. destruct loaded as [v |]; [| discriminate].
  destruct (py_contains v "video_url") as [[] |] eqn:H1; try discriminate.
  destruct (py_contains v "subtitle_url") as [[] |] eqn:H2; try discriminate.
  destruct (py_contains v "render_config") as [[] |] eqn:H3; try discriminate.
  intros [= <-]. done.
Qed.

Lemma contains_key d key :
  py_contains (PDict d) key = Ok true -> exists v, items_get d key = Some v.
Proof. simpl. intros [= H]. by apply bool_decide_eq_true in H as [v Hv]; exists v. Qed.

(** X9.  A config that [parse_config] returns is the loaded value,
    unchanged, and it passed three membership tests only: an object has the
    three keys (with any values), an array has the three names among its
    elements, a string has them as substrings.  Null, booleans and numbers
    are never returned. *)
Theorem parse_config_checks_keys_only loaded config :
  parse_config loaded = Some config ->
  loaded = Some config /\
  match config with
  | PDict d =>
      is_Some (items_get d "video_url") /\ is_Some (items_get d "subtitle_url") /\
      is_Some (items_get d "render_config")
  | PList l =>
      PStr "video_url" ∈ l /\ PStr "subtitle_url" ∈ l /\ PStr "render_config" ∈ l
  | PStr s =>
      occurs "video_url" s = true /\ occurs "subtitle_url" s = true /\
      occurs "render_config" s = true
  | _ => False
  end.
Proof.
  intros Hp. destruct (parse_config_accepts _ _ Hp) as (Hl & H1 & H2 & H3).
  split; [done |].
  destruct config as [| b | z | f | s | l | d]; try discriminate H1.
  - simpl in *. by repeat split; congruence.
  - assert (forall key, py_contains (PList l) key = Ok true -> PStr key ∈ l) as Hin.
    { intros key [= He]. apply existsb_exists in He as (v & Hv & Heq).
      apply py_eq_str_true in Heq as ->. by apply list_elem_of_In. }
    auto.
  - repeat split; by apply contains_key.
Qed.

Lemma stream_metadata_complete to_float data info :
  stream_metadata to_float data = Some info ->
  exists stream rest width height text duration,
    d_streams data = Some (stream :: rest) /\
    s_width stream = Some width /\ s_height stream = Some height /\
    s_duration stream = Some text /\ to_float text = Some duration /\
    info = mk_video_info (Some width) (Some height) (Some duration).
Proof.
  unfold stream_metadata.
  destruct (d_streams data) as [[| stream rest] |]; try discriminate.
  destruct (s_width stream) as [width |] eqn:Hw; [| discriminate].
  destruct (s_height stream) as [height |] eqn:Hh; [| discriminate].
  destruct (s_duration stream) as [text |] eqn:Hd; [| discriminate].
  destruct (to_float text) as [duration |] eqn:Hf; [| discriminate].
  intros [= <-]. by exists stream, rest, width, height, text, duration.
Qed.

(** X10.  Metadata that [get_video_info] returns has all three keys.  Its
    sizes are those of the first stream, whatever they are, and its
    duration is the first stream's, converted.  With it the compiler never
    raises [KeyError], and the duration has no influence on the command. *)
Theorem probed_metadata_is_first_stream W video_path info :
  get_video_info W video_path = Some info ->
  missing_key info = None /\
  exists stream rest text,
    (d_streams <$> ffprobe W video_path) = Some (Some (stream :: rest)) /\
    vi_width info = s_width stream /\ vi_height info = s_height stream /\
    s_duration stream = Some text /\ vi_duration info = float_of_str W text /\
    (forall E config vp sp key,
        build_ffmpeg_command E config info vp sp <> Raise (KeyError key)) /\
    (forall E config vp sp duration,
        build_ffmpeg_command E config info vp sp
        = build_ffmpeg_command E config
            (mk_video_info (vi_width info) (vi_height info) (Some duration)) vp sp).
Proof.
  unfold get_video_info. destruct (ffprobe W video_path) as [data |]; [| discriminate].
  cbn [mbind option_bind]. intros Hs.
  destruct (stream_metadata_complete _ _ _ Hs)
    as (stream & rest & width & height & text & duration & Hd & Hw & Hh & Ht & Hf & ->).
  split; [done |]. exists stream, rest, text. simpl. rewrite Hd, Hw, Hh, Hf.
  repeat split; try done.
  intros E config vp sp key Hb. rewrite build_with_metadata in Hb.
  destruct (run_stages E config width height vp sp) as [st |] eqn:Hr; [discriminate |].
  injection Hb as ->. destruct (run_stages_raises _ _ _ _ _ _ _ Hr) as [[? _] | [? _]];
    discriminate.
Qed.

(** The steps of [main], by cases. *)
Lemma main_cases W :
  (main W = ([], Exit1) /\ parse_config (loaded_config W) = None) \/
  (main W = ([], Uncaught (Raised TypeError)) /\
   exists config, parse_config (loaded_config W) = Some config /\
     (match config with PDict _ => False | _ => True end \/
      exists d v, config = PDict d /\ items_get d "video_url" = Some v /\
                  match v with PStr _ => False | _ => True end)) \/
  (exists config video_url subtitle_url,
      parse_config (loaded_config W) = Some (PDict config) /\
      items_get config "video_url" = Some (PStr video_url) /\
      items_get config "subtitle_url" = Some subtitle_url /\
      let get_video := Download (PStr video_url) (video_path_of video_url) in
      let get_srt := Download subtitle_url srt_path in
      (main W = ([get_video], Exit1) /\
       download_file W (PStr video_url) (video_path_of video_url) = false \/
       download_file W (PStr video_url) (video_path_of video_url) = true /\
       (main W = ([get_video; get_srt], Exit1) /\
        download_file W subtitle_url srt_path = false \/
        download_file W subtitle_url srt_path = true /\
        (main W = ([get_video; get_srt; Probe (video_path_of video_url)], Exit1) /\
         get_video_info W (video_path_of video_url) = None \/
         exists info,
           get_video_info W (video_path_of video_url) = Some info /\
           main W = render W config info (video_path_of video_url)
                      [get_video; get_srt; Probe (video_path_of video_url)])))).
Proof.
  unfold main.
  destruct (parse_config (loaded_config W)) as [config |] eqn:Hp; [| by left].
  right. destruct (parse_config_checks_keys_only _ _ Hp) as [_ Hk].
  destruct config as [| b | z | f | s | l | d];
    try (left; split; [reflexivity |]; eexists; split; [reflexivity |]; by left).
  destruct Hk as ([v Hv] & [u Hu] & _). rewrite Hv.
  destruct v as [| b | z | f | video_url | l | d'];
    try (left; split; [reflexivity |]; eexists; split; [reflexivity |];
         right; eexists _, _; by repeat split).
  right. exists d, video_url, u. split; [done |]. split; [done |]. split; [done |].
  cbv zeta. rewrite Hu.
  destruct (download_file W (PStr video_url) _); [right; split; [done |] | by left].
  destruct (download_file W u srt_path); [right; split; [done |] | by left].
  destruct (get_video_info W _) as [info |]; [right; by exists info | by left].
Qed.

Lemma render_cases W config info video_path done :
  (render W config info video_path done = (done, Uncaught AttributeError) /\
   match default (PDict []) (items_get config "render_config") with
   | PDict _ => False
   | _ => True
   end) \/
  (exists render_config,
      default (PDict []) (items_get config "render_config") = PDict render_config /\
      ((exists e,
           build_ffmpeg_command (host W) (list_to_map render_config) info video_path srt_path
           = Raise e /\
           render W config info video_path done = (done, Uncaught (Raised e))) \/
       (exists cmd,
           build_ffmpeg_command (host W) (list_to_map render_config) info video_path srt_path
           = Ok cmd /\
           render W config info video_path done
           = (done ++ [Render cmd], if run_command W cmd then Exit0 else Exit1)))).
Proof.
  unfold render.
  destruct (default (PDict []) (items_get config "render_config"))
    as [| b | z | f | s | l | render_config]; try (by left).
  right. exists render_config. split; [done |].
  destruct (build_ffmpeg_command _ _ _ _ _) as [cmd | e]; [right | left]; by eexists.
Qed.

(** X11.  When [main] runs ffmpeg, the config was an object with a string
    [video_url] and an object [render_config], both downloads and the
    probe succeeded, the command is the one compiled from them, and the
    run is the fourth and last action; the exit status is that of the
    run. *)
Theorem main_renders_only_when_ready W cmd :
  Render cmd ∈ (main W).1 ->
  exists config video_url subtitle_url info render_config,
    parse_config (loaded_config W) = Some (PDict config) /\
    items_get config "video_url" = Some (PStr video_url) /\
    items_get config "subtitle_url" = Some subtitle_url /\
    items_get config "render_config" = Some (PDict render_config) /\
    download_file W (PStr video_url) (video_path_of video_url) = true /\
    download_file W subtitle_url srt_path = true /\
    get_video_info W (video_path_of video_url) = Some info /\
    build_ffmpeg_command (host W) (list_to_map render_config) info
      (video_path_of video_url) srt_path = Ok cmd /\
    main W = ([Download (PStr video_url) (video_path_of video_url);
               Download subtitle_url srt_path;
               Probe (video_path_of video_url);
               Render cmd],
              if run_command W cmd then Exit0 else Exit1).
Proof.
  intros Hin.
  destruct (main_cases W) as [[Hm _] | [[Hm _] | Hm]];
    try (rewrite Hm in Hin; by apply elem_of_nil in Hin).
  destruct Hm as (config & video_url & subtitle_url & Hp & Hv & Hs & Hm). cbv zeta in Hm.
  destruct Hm as [[Hm _] | [Hd1 [[Hm _] | [Hd2 [[Hm _] | (info & Hi & Hm)]]]]];
    try (rewrite Hm in Hin; simpl in Hin;
         repeat (apply elem_of_cons in Hin as [Hin | Hin]; [discriminate |]);
         by apply elem_of_nil in Hin).
  destruct (parse_config_checks_keys_only _ _ Hp) as (_ & _ & _ & [rc Hrc]).
  destruct (render_cases W config info (video_path_of video_url)
              [Download (PStr video_url) (video_path_of video_url);
               Download subtitle_url srt_path; Probe (video_path_of video_url)])
    as [[Hr _] | (render_config & Hd & [(e & _ & Hr) | (cmd' & Hb & Hr)])];
    rewrite Hr in Hm;
    try (rewrite Hm in Hin; simpl in Hin;
         repeat (apply elem_of_cons in Hin as [Hin | Hin]; [discriminate |]);
         by apply elem_of_nil in Hin).
  rewrite Hm in Hin. simpl in Hin.
  repeat (apply elem_of_cons in Hin as [Hin | Hin]; [discriminate |]).
  apply elem_of_cons in Hin as [[= ->] | Hin]; [| by apply elem_of_nil in Hin].
  rewrite Hrc in Hd. simpl in Hd. subst rc.
  by exists config, video_url, subtitle_url, info, render_config.
Qed.




Lemma sample_world_runs :
  main sample_world
  = ([Download (PStr "https://cdn.example.com/clips/talk.webm") "downloads/input_video.webm";
      Download (PStr "https://cdn.example.com/clips/talk.srt") "downloads/input_subtitles.srt";
      Probe "downloads/input_video.webm";
      Render sample_command], Exit0).
Proof. by vm_compute. Qed.

Lemma main_renders_only_when_ready_witness :
  Render sample_command ∈ (main sample_world).1 /\
  exists config video_url subtitle_url info render_config,
    parse_config (loaded_config sample_world) = Some (PDict config) /\
    items_get config "video_url" = Some (PStr video_url) /\
    items_get config "subtitle_url" = Some subtitle_url /\
    items_get config "render_config" = Some (PDict render_config) /\
    download_file sample_world (PStr video_url) (video_path_of video_url) = true /\
    download_file sample_world subtitle_url srt_path = true /\
    get_video_info sample_world (video_path_of video_url) = Some info /\
    build_ffmpeg_command (host sample_world) (list_to_map render_config) info
      (video_path_of video_url) srt_path = Ok sample_command /\
    main sample_world
    = ([Download (PStr video_url) (video_path_of video_url);
        Download subtitle_url srt_path;
        Probe (video_path_of video_url);
        Render sample_command],
       if run_command sample_world sample_command then Exit0 else Exit1).
Proof.
  assert (Render sample_command ∈ (main sample_world).1) as Hin.
  { rewrite sample_world_runs. simpl. do 3 apply list_elem_of_further.
    apply list_elem_of_here. }
  split; [exact Hin |].
  exact (main_renders_only_when_ready sample_world sample_command Hin).
Defined.

(** X13.  A config that passed [parse_config] but is not an object, or
    whose [video_url] is not a string, stops [main] with an uncaught
    [TypeError] before anything is downloaded. *)
Theorem malformed_request_crashes_first W config :
  parse_config (loaded_config W) = Some config ->
  match config with
  | PDict d => forall s, items_get d "video_url" <> Some (PStr s)
  | _ => True
  end ->
  main W = ([], Uncaught (Raised TypeError)).
Proof.
  intros Hp Hc. unfold main. rewrite Hp.
  destruct (parse_config_checks_keys_only _ _ Hp) as [_ Hk].
  destruct config as [| b | z | f | s | l | d]; try done.
  destruct Hk as ([v Hv] & _). rewrite Hv.
  destruct v as [| b | z | f | s | l | d']; try done.
  by destruct (Hc s).
Qed.

Lemma malformed_request_crashes_first_witness :
  parse_config (loaded_config array_world) = Some array_request /\
  main array_world = ([], Uncaught (Raised TypeError)).
Proof.
  assert (parse_config (loaded_config array_world) = Some array_request) as Hp
    by reflexivity.
  split; [exact Hp |].
  exact (malformed_request_crashes_first array_world array_request Hp I).
Defined.

Lemma parse_config_checks_keys_only_witness :
  parse_config (Some array_request) = Some array_request /\
  Some array_request = Some array_request /\
  PStr "video_url" ∈ [PStr "video_url"; PStr "subtitle_url"; PStr "render_config"] /\
  PStr "subtitle_url" ∈ [PStr "video_url"; PStr "subtitle_url"; PStr "render_config"] /\
  PStr "render_config" ∈ [PStr "video_url"; PStr "subtitle_url"; PStr "render_config"].
Proof.
  assert (parse_config (Some array_request) = Some array_request) as Hp by reflexivity.
  split; [exact Hp |].
  exact (parse_config_checks_keys_only (Some array_request) array_request Hp).
Defined.


Lemma probed_metadata_is_first_stream_witness :
  get_video_info sample_world "downloads/input_video.webm"
  = Some (mk_video_info (Some 1920) (Some 1080) (Some (FFin false 21 (-1)))) /\
  missing_key (mk_video_info (Some 1920) (Some 1080) (Some (FFin false 21 (-1)))) = None.
Proof.
  assert (get_video_info sample_world "downloads/input_video.webm"
          = Some (mk_video_info (Some 1920) (Some 1080) (Some (FFin false 21 (-1)))))
    as Hg by reflexivity.
  split; [exact Hg |].
  exact (proj1 (probed_metadata_is_first_stream sample_world _ _ Hg)).
Defined.


Lemma crop_overflows_beyond_binary64_witness :
  dict_get full_config "crop_mode" = PStr "center_crop" /\
  2 ^ 1024 <= 2 ^ 1024 /\ 2 ^ 1024 < 2 ^ 1024 + 1 /\
  build_ffmpeg_command all_assets full_config
    (mk_video_info (Some (2 ^ 1024 + 1)) (Some (2 ^ 1024)) (Some FNaN)) sample_video sample_srt
  = Raise OverflowError.
Proof.
  split; [reflexivity |]. split; [lia |]. split; [lia |].
  exact (proj2 (crop_overflows_beyond_binary64 all_assets full_config (2 ^ 1024 + 1)
                  (2 ^ 1024) FNaN sample_video sample_srt eq_refl ltac:(lia) ltac:(lia))).
Defined.

